(** * The gateway shard client of D++ (src/dpp/discordclient.cpp)

    A shallow embedding of [DiscordClient::HandleFrame],
    [DiscordClient::OneSecondTimer] and the member functions they call,
    followed by the properties of the gateway session they establish.

    Conventions of the embedding:
    - C++ integers are [Z], with the wrap-around of the unsigned types
      written out ([uint32], [uint64]); [time_t] is a signed 64-bit count of
      seconds and is kept as a plain [Z];
    - [std::string] is [string], a sequence of 8-bit characters;
    - the client object, the cluster it points to ([creator]) and the part
      of the environment the code acts on (wall clock, observable calls) form
      one [State] that every member function transforms; where two shards
      of a cluster run side by side, the cluster, the clock and the calls
      are the [Shared] part that each step of a shard takes up and hands on;
    - calls that leave the translation unit and do not return a value the
      code uses ([write], [close], [::close], [sleep_for], the log hook, the
      garbage collector) are recorded, stamped with the clock, in [trace];
    - [json::parse], [json::dump], zlib's [inflate] and [HandleEvent] are
      not part of this file of the repository: the embedding takes them as
      parameters. *)

From Stdlib Require Import ZArith List String Ascii Bool Lia.
From Stdlib Require Import Floats Uint63 DecimalString.
Import ListNotations.

Open Scope string_scope.
Open Scope Z_scope.

(** ** Machine integers *)

Definition uint32 (z : Z) : Z := z mod 2 ^ 32.
Definition uint64 (z : Z) : Z := z mod 2 ^ 64.

(** Conversion of a 64-bit integer to [double] (round to nearest), for
    magnitudes below [2^63]. *)
Definition double_of_Z (z : Z) : float :=
  if z <? 0 then PrimFloat.opp (PrimFloat.of_uint63 (Uint63.of_Z (- z)))
  else PrimFloat.of_uint63 (Uint63.of_Z z).

(** ** Strings *)

Definition size (s : string) : Z := Z.of_nat (String.length s).

Definition empty (s : string) : bool := (size s =? 0).

(** [fmt::format] renders an integer argument of [{}] in decimal. *)
Definition fmt_int (z : Z) : string := NilZero.string_of_int (Z.to_int z).

(** [buffer[pos]] for [pos] of type [size_t], read as [uint8_t].
    [std::string::operator[]] is defined for [pos <= size()] (the position
    [size()] holds the terminating zero); any other position is outside the
    storage of the string and the read has no defined result: [None]. *)
Definition at_index (buffer : string) (pos : Z) : option Z :=
  if pos <? size buffer then
    match String.get (Z.to_nat pos) buffer with
    | Some c => Some (Z.of_N (N_of_ascii c))
    | None => None
    end
  else if pos =? size buffer then Some 0
  else None.

(** ** JSON values (nlohmann::json)

    Numbers are the integer alternatives of the library ([number_integer],
    [number_unsigned]); the floating-point alternative is not represented.
    An object is kept as the list of its members; [json_find] is both
    [find(key)] and, once the key is known to be present, [operator[]]. *)

#[local] Unset Elimination Schemes.
Inductive json : Type :=
| JNull
| JBool (b : bool)
| JNum (z : Z)
| JStr (s : string)
| JArr (items : list json)
| JObj (members : list (string * json)).
#[local] Set Elimination Schemes.

(** Exceptions that escape [HandleFrame]: the library's [type_error],
    raised by a conversion from a value of the wrong type. *)
Inductive exn : Type :=
| type_error (id : Z).

Fixpoint assoc_find (key : string) (members : list (string * json)) : option json :=
  match members with
  | [] => None
  | (k, v) :: rest => if String.eqb k key then Some v else assoc_find key rest
  end.

Definition json_find (key : string) (j : json) : option json :=
  match j with
  | JObj members => assoc_find key members
  | _ => None
  end.

Definition is_null (j : json) : bool :=
  match j with JNull => true | _ => false end.

(** [find(key) != end() && !j[key].is_null()] *)
Definition present (key : string) (j : json) : option json :=
  match json_find key j with
  | Some v => if is_null v then None else Some v
  | None => None
  end.

(** [get<uint64_t>()] *)
Definition get_uint64 (j : json) : exn + Z :=
  match j with
  | JNum z => inr (uint64 z)
  | _ => inl (type_error 302)
  end.

(** [get<uint32_t>()], also the implicit conversion of [uint32_t op = j["op"]];
    for this width the library converts booleans as well. *)
Definition get_uint32 (j : json) : exn + Z :=
  match j with
  | JNum z => inr (uint32 z)
  | JBool b => inr (if b then 1 else 0)
  | _ => inl (type_error 302)
  end.

(** Conversion to [std::string]. *)
Definition get_string (j : json) : exn + string :=
  match j with
  | JStr s => inr s
  | _ => inl (type_error 302)
  end.

(** [obj[key] = v] on an object: replace the member or add it. *)
Fixpoint assoc_set (key : string) (v : json) (members : list (string * json))
  : list (string * json) :=
  match members with
  | [] => [(key, v)]
  | (k, x) :: rest =>
      if String.eqb k key then (k, v) :: rest else (k, x) :: assoc_set key v rest
  end.

Definition json_set (key : string) (v : json) (j : json) : json :=
  match j with
  | JObj members => JObj (assoc_set key v members)
  | JNull => JObj [(key, v)]
  | other => other
  end.

(** ** zlib *)

Definition Z_NO_FLUSH : Z := 0.
Definition Z_OK : Z := 0.
Definition Z_STREAM_END : Z := 1.
Definition Z_NEED_DICT : Z := 2.
Definition Z_ERRNO : Z := -1.
Definition Z_STREAM_ERROR : Z := -2.
Definition Z_DATA_ERROR : Z := -3.
Definition Z_MEM_ERROR : Z := -4.
Definition Z_BUF_ERROR : Z := -5.

Definition DECOMP_BUFFER_SIZE : Z := 512 * 1024.

(** The fields of [z_stream] the client touches; [internal_state] stands for
    the private inflate state of the library, in an encoding of the library's
    choosing. *)
Record z_stream : Type := mk_z_stream {
  next_in : string;
  avail_in : Z;
  avail_out : Z;
  internal_state : N
}.

Definition set_input (buffer : string) (zs : z_stream) : z_stream :=
  {| next_in := buffer; avail_in := size buffer;
     avail_out := avail_out zs; internal_state := internal_state zs |}.

Definition set_avail_out (n : Z) (zs : z_stream) : z_stream :=
  {| next_in := next_in zs; avail_in := avail_in zs;
     avail_out := n; internal_state := internal_state zs |}.

(** What one call of [inflate] leaves behind: its return code, the contents
    of the output buffer [next_out] pointed to, and the updated stream. *)
Record inflated : Type := mk_inflated {
  ret : Z;
  decomp_buffer : string;
  stream : z_stream
}.

(** ** The client, its cluster and the environment *)

Inductive loglevel : Type :=
| ll_trace | ll_debug | ll_info | ll_warning | ll_error | ll_critical.

(** Modelled from the spec: the states of the WebSocket transport, whose
    declaration is in the WSClient header: CONNECTING, CONNECTED, CLOSED. *)
Inductive WSState : Type :=
| CONNECTING | CONNECTED | CLOSED.

(** Calls observable from outside the client. *)
Inductive event : Type :=
| EvLog (severity : loglevel) (message : string)   (* creator->dispatch.log *)
| EvWrite (text : string)                          (* this->write *)
| EvClose                                          (* this->close() *)
| EvCloseSocket                                    (* ::close(sfd) *)
| EvSleep (seconds : Z)                            (* sleep_for *)
| EvGarbageCollection.                             (* dpp::garbage_collection *)

(** [dpp::cluster], as far as the client reaches into it. *)
Record cluster : Type := mk_cluster {
  last_identify : Z;
  dispatch_log : bool      (* whether the user hooked the log event *)
}.

(** The data members of [DiscordClient] that this file of the repository
    reads or writes. The class declaration is in a header; the widths are the
    ones visible here: [shard_id], [max_shards] and [intents] are [uint32_t]
    (the constructor's parameters), [heartbeat_interval] is read with
    [get<uint32_t>()] and [last_seq] with [get<uint64_t>()], the timestamps
    hold [time(NULL)], and the counters [reconnects] and [resumes] are taken
    to be [uint32_t] as well. *)
Record State : Type := mk_State {
  (* DiscordClient *)
  shard_id : Z;
  max_shards : Z;
  token : string;
  intents : Z;
  compressed : bool;
  last_heartbeat : Z;
  heartbeat_interval : Z;
  reconnects : Z;
  resumes : Z;
  last_seq : Z;
  sessionid : string;
  decompressed_total : Z;
  decompressed : string;
  d_stream : z_stream;
  ready : bool;
  connect_time : Z;
  last_heartbeat_ack : Z;
  message_queue : list string;
  (* WSClient *)
  ws_state : WSState;
  (* the cluster behind [creator] *)
  creator : cluster;
  (* environment: [time(NULL)] and the calls made so far *)
  clock : Z;
  trace : list (Z * event)
}.

Definition set_last_heartbeat (v : Z) (s : State) : State :=
  {| shard_id := shard_id s; max_shards := max_shards s; token := token s;
     intents := intents s; compressed := compressed s; last_heartbeat := v;
     heartbeat_interval := heartbeat_interval s; reconnects := reconnects s;
     resumes := resumes s; last_seq := last_seq s; sessionid := sessionid s;
     decompressed_total := decompressed_total s; decompressed := decompressed s;
     d_stream := d_stream s; ready := ready s; connect_time := connect_time s;
     last_heartbeat_ack := last_heartbeat_ack s; message_queue := message_queue s;
     ws_state := ws_state s; creator := creator s; clock := clock s; trace := trace s |}.

Definition set_heartbeat_interval (v : Z) (s : State) : State :=
  {| shard_id := shard_id s; max_shards := max_shards s; token := token s;
     intents := intents s; compressed := compressed s; last_heartbeat := last_heartbeat s;
     heartbeat_interval := v; reconnects := reconnects s; resumes := resumes s;
     last_seq := last_seq s; sessionid := sessionid s;
     decompressed_total := decompressed_total s; decompressed := decompressed s;
     d_stream := d_stream s; ready := ready s; connect_time := connect_time s;
     last_heartbeat_ack := last_heartbeat_ack s; message_queue := message_queue s;
     ws_state := ws_state s; creator := creator s; clock := clock s; trace := trace s |}.

Definition set_reconnects (v : Z) (s : State) : State :=
  {| shard_id := shard_id s; max_shards := max_shards s; token := token s;
     intents := intents s; compressed := compressed s; last_heartbeat := last_heartbeat s;
     heartbeat_interval := heartbeat_interval s; reconnects := v; resumes := resumes s;
     last_seq := last_seq s; sessionid := sessionid s;
     decompressed_total := decompressed_total s; decompressed := decompressed s;
     d_stream := d_stream s; ready := ready s; connect_time := connect_time s;
     last_heartbeat_ack := last_heartbeat_ack s; message_queue := message_queue s;
     ws_state := ws_state s; creator := creator s; clock := clock s; trace := trace s |}.

Definition set_resumes (v : Z) (s : State) : State :=
  {| shard_id := shard_id s; max_shards := max_shards s; token := token s;
     intents := intents s; compressed := compressed s; last_heartbeat := last_heartbeat s;
     heartbeat_interval := heartbeat_interval s; reconnects := reconnects s; resumes := v;
     last_seq := last_seq s; sessionid := sessionid s;
     decompressed_total := decompressed_total s; decompressed := decompressed s;
     d_stream := d_stream s; ready := ready s; connect_time := connect_time s;
     last_heartbeat_ack := last_heartbeat_ack s; message_queue := message_queue s;
     ws_state := ws_state s; creator := creator s; clock := clock s; trace := trace s |}.

Definition set_last_seq (v : Z) (s : State) : State :=
  {| shard_id := shard_id s; max_shards := max_shards s; token := token s;
     intents := intents s; compressed := compressed s; last_heartbeat := last_heartbeat s;
     heartbeat_interval := heartbeat_interval s; reconnects := reconnects s;
     resumes := resumes s; last_seq := v; sessionid := sessionid s;
     decompressed_total := decompressed_total s; decompressed := decompressed s;
     d_stream := d_stream s; ready := ready s; connect_time := connect_time s;
     last_heartbeat_ack := last_heartbeat_ack s; message_queue := message_queue s;
     ws_state := ws_state s; creator := creator s; clock := clock s; trace := trace s |}.

Definition set_sessionid (v : string) (s : State) : State :=
  {| shard_id := shard_id s; max_shards := max_shards s; token := token s;
     intents := intents s; compressed := compressed s; last_heartbeat := last_heartbeat s;
     heartbeat_interval := heartbeat_interval s; reconnects := reconnects s;
     resumes := resumes s; last_seq := last_seq s; sessionid := v;
     decompressed_total := decompressed_total s; decompressed := decompressed s;
     d_stream := d_stream s; ready := ready s; connect_time := connect_time s;
     last_heartbeat_ack := last_heartbeat_ack s; message_queue := message_queue s;
     ws_state := ws_state s; creator := creator s; clock := clock s; trace := trace s |}.

Definition set_decompressed_total (v : Z) (s : State) : State :=
  {| shard_id := shard_id s; max_shards := max_shards s; token := token s;
     intents := intents s; compressed := compressed s; last_heartbeat := last_heartbeat s;
     heartbeat_interval := heartbeat_interval s; reconnects := reconnects s;
     resumes := resumes s; last_seq := last_seq s; sessionid := sessionid s;
     decompressed_total := v; decompressed := decompressed s; d_stream := d_stream s;
     ready := ready s; connect_time := connect_time s;
     last_heartbeat_ack := last_heartbeat_ack s; message_queue := message_queue s;
     ws_state := ws_state s; creator := creator s; clock := clock s; trace := trace s |}.

Definition set_decompressed (v : string) (s : State) : State :=
  {| shard_id := shard_id s; max_shards := max_shards s; token := token s;
     intents := intents s; compressed := compressed s; last_heartbeat := last_heartbeat s;
     heartbeat_interval := heartbeat_interval s; reconnects := reconnects s;
     resumes := resumes s; last_seq := last_seq s; sessionid := sessionid s;
     decompressed_total := decompressed_total s; decompressed := v; d_stream := d_stream s;
     ready := ready s; connect_time := connect_time s;
     last_heartbeat_ack := last_heartbeat_ack s; message_queue := message_queue s;
     ws_state := ws_state s; creator := creator s; clock := clock s; trace := trace s |}.

Definition set_d_stream (v : z_stream) (s : State) : State :=
  {| shard_id := shard_id s; max_shards := max_shards s; token := token s;
     intents := intents s; compressed := compressed s; last_heartbeat := last_heartbeat s;
     heartbeat_interval := heartbeat_interval s; reconnects := reconnects s;
     resumes := resumes s; last_seq := last_seq s; sessionid := sessionid s;
     decompressed_total := decompressed_total s; decompressed := decompressed s; d_stream := v;
     ready := ready s; connect_time := connect_time s;
     last_heartbeat_ack := last_heartbeat_ack s; message_queue := message_queue s;
     ws_state := ws_state s; creator := creator s; clock := clock s; trace := trace s |}.

Definition set_connect_time (v : Z) (s : State) : State :=
  {| shard_id := shard_id s; max_shards := max_shards s; token := token s;
     intents := intents s; compressed := compressed s; last_heartbeat := last_heartbeat s;
     heartbeat_interval := heartbeat_interval s; reconnects := reconnects s;
     resumes := resumes s; last_seq := last_seq s; sessionid := sessionid s;
     decompressed_total := decompressed_total s; decompressed := decompressed s;
     d_stream := d_stream s; ready := ready s; connect_time := v;
     last_heartbeat_ack := last_heartbeat_ack s; message_queue := message_queue s;
     ws_state := ws_state s; creator := creator s; clock := clock s; trace := trace s |}.

Definition set_last_heartbeat_ack (v : Z) (s : State) : State :=
  {| shard_id := shard_id s; max_shards := max_shards s; token := token s;
     intents := intents s; compressed := compressed s; last_heartbeat := last_heartbeat s;
     heartbeat_interval := heartbeat_interval s; reconnects := reconnects s;
     resumes := resumes s; last_seq := last_seq s; sessionid := sessionid s;
     decompressed_total := decompressed_total s; decompressed := decompressed s;
     d_stream := d_stream s; ready := ready s; connect_time := connect_time s;
     last_heartbeat_ack := v; message_queue := message_queue s; ws_state := ws_state s;
     creator := creator s; clock := clock s; trace := trace s |}.

Definition set_message_queue (v : list string) (s : State) : State :=
  {| shard_id := shard_id s; max_shards := max_shards s; token := token s;
     intents := intents s; compressed := compressed s; last_heartbeat := last_heartbeat s;
     heartbeat_interval := heartbeat_interval s; reconnects := reconnects s;
     resumes := resumes s; last_seq := last_seq s; sessionid := sessionid s;
     decompressed_total := decompressed_total s; decompressed := decompressed s;
     d_stream := d_stream s; ready := ready s; connect_time := connect_time s;
     last_heartbeat_ack := last_heartbeat_ack s; message_queue := v; ws_state := ws_state s;
     creator := creator s; clock := clock s; trace := trace s |}.

Definition set_creator (v : cluster) (s : State) : State :=
  {| shard_id := shard_id s; max_shards := max_shards s; token := token s;
     intents := intents s; compressed := compressed s; last_heartbeat := last_heartbeat s;
     heartbeat_interval := heartbeat_interval s; reconnects := reconnects s;
     resumes := resumes s; last_seq := last_seq s; sessionid := sessionid s;
     decompressed_total := decompressed_total s; decompressed := decompressed s;
     d_stream := d_stream s; ready := ready s; connect_time := connect_time s;
     last_heartbeat_ack := last_heartbeat_ack s; message_queue := message_queue s;
     ws_state := ws_state s; creator := v; clock := clock s; trace := trace s |}.

Definition set_clock (v : Z) (s : State) : State :=
  {| shard_id := shard_id s; max_shards := max_shards s; token := token s;
     intents := intents s; compressed := compressed s; last_heartbeat := last_heartbeat s;
     heartbeat_interval := heartbeat_interval s; reconnects := reconnects s;
     resumes := resumes s; last_seq := last_seq s; sessionid := sessionid s;
     decompressed_total := decompressed_total s; decompressed := decompressed s;
     d_stream := d_stream s; ready := ready s; connect_time := connect_time s;
     last_heartbeat_ack := last_heartbeat_ack s; message_queue := message_queue s;
     ws_state := ws_state s; creator := creator s; clock := v; trace := trace s |}.

Definition set_trace (v : list (Z * event)) (s : State) : State :=
  {| shard_id := shard_id s; max_shards := max_shards s; token := token s;
     intents := intents s; compressed := compressed s; last_heartbeat := last_heartbeat s;
     heartbeat_interval := heartbeat_interval s; reconnects := reconnects s;
     resumes := resumes s; last_seq := last_seq s; sessionid := sessionid s;
     decompressed_total := decompressed_total s; decompressed := decompressed s;
     d_stream := d_stream s; ready := ready s; connect_time := connect_time s;
     last_heartbeat_ack := last_heartbeat_ack s; message_queue := message_queue s;
     ws_state := ws_state s; creator := creator s; clock := clock s; trace := v |}.

(** ** Environment primitives *)

(** [time(NULL)] is [clock]. In [HandleFrame] the calls of one run read the
    same second unless the function sleeps in between. For the tick there
    are two models: [OneSecondTimer], a tick that begins and ends within one
    second, and [OneSecondTimer_reads], where every call of [time] reads a
    second of its own. *)
Definition emit (e : event) (s : State) : State :=
  set_trace (trace s ++ [(clock s, e)])%list s.

Definition write (text : string) (s : State) : State := emit (EvWrite text) s.

Definition close (s : State) : State := emit EvClose s.

Definition close_socket (s : State) : State := emit EvCloseSocket s.

Definition garbage_collection (s : State) : State := emit EvGarbageCollection s.

(** [std::this_thread::sleep_for(std::chrono::seconds(wait))]: the thread
    resumes [wait] seconds later. *)
Definition sleep_for (wait : Z) (s : State) : State :=
  set_clock (clock s + wait) (emit (EvSleep wait) s).

(** ** DiscordClient::log *)

Definition log (severity : loglevel) (msg : string) (s : State) : State :=
  if dispatch_log (creator s) then emit (EvLog severity msg) s else s.

(** ** DiscordClient::Error *)

Definition errortext : list (Z * string) :=
  [ (1000, "Socket shutdown");
    (1001, "Client is leaving");
    (1002, "Endpoint received a malformed frame");
    (1003, "Endpoint received an unsupported frame");
    (1004, "Reserved code");
    (1005, "Expected close status, received none");
    (1006, "No close code frame has been receieved");
    (1007, "Endpoint received inconsistent message (e.g. malformed UTF-8)");
    (1008, "Generic error");
    (1009, "Endpoint won't process large frame");
    (1010, "Client wanted an extension which server did not negotiate");
    (1011, "Internal server error while operating");
    (1012, "Server/service is restarting");
    (1013, "Temporary server condition forced blocking client's request");
    (1014, "Server acting as gateway received an invalid response");
    (1015, "Transport Layer Security handshake failure");
    (4000, "Unknown error");
    (4001, "Unknown opcode");
    (4002, "Decode error");
    (4003, "Not authenticated");
    (4004, "Authentication failed");
    (4005, "Already authenticated");
    (4007, "Invalid seq");
    (4008, "Rate limited");
    (4009, "Session timed out");
    (4010, "Invalid shard");
    (4011, "Sharding required");
    (4012, "Invalid API version");
    (4013, "Invalid intent(s)");
    (4014, "Disallowed intent(s)");
    (6000, "ZLib Stream Error");
    (6001, "ZLib Data Error");
    (6002, "ZLib Memory Error");
    (6666, "Hell freezing over") ].

Fixpoint errortext_find (errorcode : Z) (table : list (Z * string)) : option string :=
  match table with
  | [] => None
  | (code, text) :: rest =>
      if code =? errorcode then Some text else errortext_find errorcode rest
  end.

Definition error_message (errorcode : Z) : string :=
  let error :=
    match errortext_find errorcode errortext with
    | Some text => text
    | None => "Unknown error"
    end in
  "OOF! Error from underlying websocket: " ++ fmt_int errorcode ++ ": " ++ error.

Definition Error (errorcode : Z) (s : State) : State :=
  log ll_warning (error_message errorcode) s.

(** ** DiscordClient::QueueMessage, ClearQueue, GetQueueSize, IsConnected *)

Definition QueueMessage (j : string) (to_front : bool) (s : State) : State :=
  if to_front then set_message_queue (j :: message_queue s) s
  else set_message_queue (message_queue s ++ [j])%list s.

Definition ClearQueue (s : State) : State := set_message_queue [] s.

Definition GetQueueSize (s : State) : Z := Z.of_nat (List.length (message_queue s)).

Definition IsConnected (s : State) : bool :=
  match ws_state s with
  | CONNECTED => ready s
  | _ => false
  end.

(** ** DiscordClient::HandleFrame *)

(** How a call of [HandleFrame] ends. [OutOfBounds] is a read outside the
    storage of [buffer], after which C++ defines no behaviour; [OutOfFuel]
    belongs to the embedding only: a loop of the source was cut off after
    [fuel] rounds. *)
Inductive outcome : Type :=
| Returned (consumed : bool) (s : State)
| Thrown (e : exn) (s : State)
| OutOfBounds
| OutOfFuel.

(** [(uint8_t)buffer[buffer.size() - k]]; the index is computed in [size_t]. *)
Definition byte_from_end (buffer : string) (k : Z) : option Z :=
  at_index buffer (uint64 (size buffer - k)).

Definition byte_is (buffer : string) (k v : Z) : option bool :=
  match byte_from_end buffer k with
  | Some b => Some (b =? v)
  | None => None
  end.

(** [a && b]: [b] is looked at only when [a] is true. *)
Definition and_then (a b : option bool) : option bool :=
  match a with
  | Some true => b
  | other => other
  end.

(** The test for a complete compressed frame (lines 130-131). *)
Definition frame_complete (buffer : string) : option bool :=
  and_then (byte_is buffer 4 0)
    (and_then (byte_is buffer 3 0)
       (and_then (byte_is buffer 2 255) (byte_is buffer 1 255))).

(** The state in which the inflate loop is entered (lines 133-135). *)
Definition inflate_start (buffer : string) (s : State) : State :=
  let s := set_decompressed "" s in
  set_d_stream (set_input buffer (d_stream s)) s.

(** [j.find("s") != j.end() && !j["s"].is_null()], then
    [j["s"].get<uint64_t>()]. *)
Definition frame_seq (j : json) : exn + option Z :=
  match present "s" j with
  | Some v =>
      match get_uint64 v with
      | inr n => inr (Some n)
      | inl e => inl e
      end
  | None => inr None
  end.

(** The test of line 205, then [get<uint32_t>()]. *)
Definition frame_heartbeat_interval (j : json) : exn + option Z :=
  match json_find "d" j with
  | Some d =>
      match present "heartbeat_interval" d with
      | Some v =>
          match get_uint32 v with
          | inr n => inr (Some n)
          | inl e => inl e
          end
      | None => inr None
      end
  | None => inr None
  end.

(** [last_seq && !sessionid.empty()] *)
Definition resumable (s : State) : bool :=
  negb (last_seq s =? 0) && negb (empty (sessionid s)).

(** The RESUME payload. *)
Definition resume_obj (s : State) : json :=
  JObj [ ("op", JNum 6);
         ("d", JObj [ ("token", JStr (token s));
                      ("session_id", JStr (sessionid s));
                      ("seq", JNum (last_seq s)) ]) ].

(** The IDENTIFY payload; [intents] is added only when non-zero. *)
Definition identify_d (s : State) : json :=
  JObj [ ("token", JStr (token s));
         ("properties", JObj [ ("$os", JStr "Linux");
                               ("$browser", JStr "D++");
                               ("$device", JStr "D++") ]);
         ("shard", JArr [ JNum (shard_id s); JNum (max_shards s) ]);
         ("compress", JBool false);
         ("large_threshold", JNum 250) ].

Definition identify_obj (s : State) : json :=
  JObj [ ("op", JNum 2);
         ("d", if intents s =? 0 then identify_d s
               else json_set "intents" (JNum (intents s)) (identify_d s)) ].

Definition waiting_message (wait : Z) : string :=
  "Waiting " ++ fmt_int wait ++ " seconds before identifying for session...".

(** The identify throttle (lines 225-229); [wait] is a [uint32_t]. *)
Fixpoint identify_gate (fuel : nat) (s : State) : option State :=
  if clock s <? last_identify (creator s) + 5 then
    match fuel with
    | O => None
    | S fuel' =>
        let wait := uint32 ((last_identify (creator s) + 5) - clock s) in
        let s := log ll_debug (waiting_message wait) s in
        identify_gate fuel' (sleep_for wait s)
    end
  else Some s.

(** ** DiscordClient::OneSecondTimer, the parts free of foreign calls *)

(** The liveness test (line 377): [heartbeat_interval * 2] is computed in
    [uint32_t] and compared with a difference of [time_t]. *)
Definition ack_missed (s : State) : bool :=
  clock s - last_heartbeat_ack s >? uint32 (heartbeat_interval s * 2).

(** One round of the drain loop (lines 386-391). *)
Definition drain_one (s : State) : State :=
  match message_queue s with
  | message :: rest => write message (set_message_queue rest s)
  | [] => s
  end.

Fixpoint drain_rounds (rounds : nat) (s : State) : State :=
  match rounds with
  | O => s
  | S n => drain_rounds n (drain_one s)
  end.

(** [for (int x = 0; x < (time(NULL) % 2) + 1; ++x)]; [%] truncates
    towards zero. [drain] is the loop of a tick that stays within one
    second, where every test reads the same roof; [drain_loop] below is the
    loop with the clock read at each test. *)
Definition drain_bound (s : State) : Z := Z.rem (clock s) 2 + 1.

Definition drain (s : State) : State :=
  drain_rounds (Z.to_nat (drain_bound s)) s.

(** [time(NULL) > last_heartbeat + ((heartbeat_interval / 1000.0) * 0.75)],
    evaluated in [double]. *)
Definition heartbeat_due (s : State) : bool :=
  PrimFloat.ltb
    (PrimFloat.add (double_of_Z (last_heartbeat s))
       (PrimFloat.mul
          (PrimFloat.div (double_of_Z (heartbeat_interval s)) 1000%float)
          0.75%float))
    (double_of_Z (clock s)).

Definition heartbeat_obj (s : State) : json :=
  JObj [ ("op", JNum 1); ("d", JNum (last_seq s)) ].

(** ** Vocabulary of the statements *)

(** The texts handed to [write], oldest first. *)
Fixpoint written (t : list (Z * event)) : list string :=
  match t with
  | [] => []
  | (_, EvWrite text) :: rest => text :: written rest
  | _ :: rest => written rest
  end.

(** The transport closes recorded in a trace. *)
Fixpoint closes (t : list (Z * event)) : list (Z * event) :=
  match t with
  | [] => []
  | (at_time, EvClose) :: rest => (at_time, EvClose) :: closes rest
  | (at_time, EvCloseSocket) :: rest => (at_time, EvCloseSocket) :: closes rest
  | _ :: rest => closes rest
  end.

(** What [log] adds to the trace. *)
Definition log_entry (severity : loglevel) (msg : string) (s : State)
  : list (Z * event) :=
  if dispatch_log (creator s) then [(clock s, EvLog severity msg)] else [].

(** A buffer as the list of its bytes, and its last [n] bytes. *)
Definition bytes (buffer : string) : list Z :=
  map (fun c => Z.of_N (N_of_ascii c)) (list_ascii_of_string buffer).

Definition final_bytes (n : nat) (buffer : string) : list Z :=
  skipn (String.length buffer - n) (bytes buffer).

(** The zlib sync flush trailer [00 00 FF FF]. *)
Definition sync_trailer : list Z := [0; 0; 255; 255].

Definition ends_with_trailer (buffer : string) : bool :=
  if list_eq_dec Z.eq_dec (final_bytes 4 buffer) sync_trailer then true else false.

(** The zlib results that abort a frame, with the code handed to [Error]. *)
Definition zlib_failure (r code : Z) : Prop :=
  ((r = Z_STREAM_ERROR \/ r = Z_NEED_DICT) /\ code = 6000)
  \/ (r = Z_DATA_ERROR /\ code = 6001)
  \/ (r = Z_MEM_ERROR /\ code = 6002).

(** [s] with the three fields of the decompressor taken from [c]. *)
Definition with_codec (c s : State) : State :=
  set_d_stream (d_stream c)
    (set_decompressed (decompressed c)
       (set_decompressed_total (decompressed_total c) s)).

(** The wait of the throttle, when one is due: a log entry, then the
    sleep up to [last_identify + 5]. *)
Definition gate_wait (s : State) : list (Z * event) :=
  if clock s <? last_identify (creator s) + 5 then
    let wait := last_identify (creator s) + 5 - clock s in
    (log_entry ll_debug (waiting_message wait) s ++ [(clock s, EvSleep wait)])%list
  else [].

(** The state in which the throttle lets the shard through. *)
Definition gate_passed (s : State) : State :=
  set_clock (Z.max (clock s) (last_identify (creator s) + 5))
    (set_trace (trace s ++ gate_wait s)%list s).

(** ** The rest of the client

    The members of [DiscordClient] outside [HandleFrame] and
    [OneSecondTimer], as far as they are free of foreign calls. *)

Definition set_ready (v : bool) (s : State) : State :=
  {| shard_id := shard_id s; max_shards := max_shards s; token := token s;
     intents := intents s; compressed := compressed s; last_heartbeat := last_heartbeat s;
     heartbeat_interval := heartbeat_interval s; reconnects := reconnects s;
     resumes := resumes s; last_seq := last_seq s; sessionid := sessionid s;
     decompressed_total := decompressed_total s; decompressed := decompressed s;
     d_stream := d_stream s; ready := v; connect_time := connect_time s;
     last_heartbeat_ack := last_heartbeat_ack s; message_queue := message_queue s;
     ws_state := ws_state s; creator := creator s; clock := clock s; trace := trace s |}.

(** The constructor (lines 42-62), up to its call of [Connect()]: the
    members of the initialiser list. The constructor leaves [d_stream],
    [connect_time] and [last_heartbeat_ack] uninitialised; they, the state of
    the transport and the environment are taken from [before]. *)
Definition DiscordClient_new (before : State) (_cluster : cluster)
    (_shard_id _max_shards : Z) (_token : string) (_intents : Z) (comp : bool)
  : State :=
  {| shard_id := _shard_id; max_shards := _max_shards; token := _token;
     intents := _intents; compressed := comp;
     last_heartbeat := clock before; heartbeat_interval := 0;
     reconnects := 0; resumes := 0; last_seq := 0; sessionid := "";
     decompressed_total := 0; decompressed := "";
     d_stream := d_stream before; ready := false;
     connect_time := connect_time before;
     last_heartbeat_ack := last_heartbeat_ack before;
     message_queue := []; ws_state := ws_state before;
     creator := _cluster; clock := clock before; trace := trace before |}.

Definition GetDeompressedBytesIn (s : State) : Z := decompressed_total s.

(** The seconds handed to [dpp::utility::uptime] (line 281). *)
Definition Uptime (s : State) : Z := clock s - connect_time s.

(** *** voiceconn (lines 508-546) *)

Module Voice.

(** [DiscordVoiceClient], of which the shard sets one flag. *)
Record DiscordVoiceClient : Type := mk_client {
  terminating : bool
}.

(** [voiceconn] without its back pointer to the shard. *)
Record voiceconn : Type := mk_voiceconn {
  channel_id : Z;
  websocket_hostname : string;
  session_id : string;
  token : string;
  voiceclient : option DiscordVoiceClient
}.



Definition is_active (v : voiceconn) : bool :=
  match voiceclient v with
  | Some _ => true
  | None => false
  end.

(** [terminating] is set on the client, which is then deleted. *)
Definition disconnect (v : voiceconn) : voiceconn :=
  if is_active v then
    {| channel_id := channel_id v; websocket_hostname := websocket_hostname v;
       session_id := session_id v; token := token v; voiceclient := None |}
  else v.

End Voice.






(** *** The guild cache (lines 408-451) *)

Module Guild.

(** [dpp::guild], as far as the counts read it. *)
Record guild : Type := mk_guild {
  shard_id : Z;
  members : list Z;
  channels : list Z
}.

End Guild.

(** The container of the guild cache: the guilds by id. *)
Definition cache_container : Type := list (Z * Guild.guild).

Definition GetGuildCount (gc : cache_container) (s : State) : Z :=
  fold_left
    (fun total g =>
       if Guild.shard_id (snd g) =? shard_id s then uint64 (total + 1) else total)
    gc 0.

Definition GetMemberCount (gc : cache_container) (s : State) : Z :=
  fold_left
    (fun total g =>
       if Guild.shard_id (snd g) =? shard_id s
       then uint64 (total + Z.of_nat (List.length (Guild.members (snd g))))
       else total)
    gc 0.

Definition GetChannelCount (gc : cache_container) (s : State) : Z :=
  fold_left
    (fun total g =>
       if Guild.shard_id (snd g) =? shard_id s
       then uint64 (total + Z.of_nat (List.length (Guild.channels (snd g))))
       else total)
    gc 0.

(** *** Further vocabulary *)

(** The sum of a list of integers. *)
Definition total (l : list Z) : Z := fold_right Z.add 0 l.

(** All members, and all channels, of the cached guilds. *)
Definition all_members (gc : cache_container) : Z :=
  total (map (fun g => Z.of_nat (List.length (Guild.members (snd g)))) gc).

Definition all_channels (gc : cache_container) : Z :=
  total (map (fun g => Z.of_nat (List.length (Guild.channels (snd g)))) gc).

(** Two guilds on shard 0 and one on shard 1. *)
Definition sample_cache : cache_container :=
  [ (11, {| Guild.shard_id := 0; Guild.members := [1; 2; 3]; Guild.channels := [7] |});
    (12, {| Guild.shard_id := 1; Guild.members := [4]; Guild.channels := [8; 9] |});
    (13, {| Guild.shard_id := 0; Guild.members := [5; 6]; Guild.channels := [] |}) ].

(** The drain loop of lines 385-392 with [time(NULL)] read anew at every
    test, as the source does: [x] is the loop counter and [reads] holds the
    seconds that the successive tests read. The test for [x = 2] fails at
    every second, so the loop needs no more than three reads. *)
Fixpoint drain_loop (x : Z) (reads : list Z) (s : State) : State :=
  match reads with
  | [] => s
  | t :: later =>
      let s := set_clock t s in
      if x <? Z.rem (clock s) 2 + 1 then drain_loop (x + 1) later (drain_one s)
      else s
  end.

(** What the shards of one cluster share: the cluster object behind
    [creator], the clock and the calls made so far. A shard that takes a step
    works on the shared part as it is then, and leaves it as its step made
    it. *)
Record Shared : Type := mk_Shared {
  the_cluster : cluster;
  now : Z;
  calls : list (Z * event)
}.

Definition resume_on (w : Shared) (s : State) : State :=
  set_creator (the_cluster w) (set_clock (now w) (set_trace (calls w) s)).

Definition shared_of (s : State) : Shared :=
  {| the_cluster := creator s; now := clock s; calls := trace s |}.

(** The seconds at which the texts of a trace were handed to [write]. *)
Fixpoint write_times (t : list (Z * event)) : list Z :=
  match t with
  | [] => []
  | (at_time, EvWrite _) :: rest => at_time :: write_times rest
  | _ :: rest => write_times rest
  end.

(** ** Sample collaborators and states

    Small stand-ins for the foreign functions and a few client states, on
    which the definitions can be run. *)

(** A codec for stored data: one call hands back the input without its
    four-byte trailer. *)
Definition stored_inflate (zs : z_stream) (flush : Z) : inflated :=
  let out := substring 0 (String.length (next_in zs) - 4) (next_in zs) in
  {| ret := Z_OK;
     decomp_buffer := out;
     stream := {| next_in := ""; avail_in := 0;
                  avail_out := avail_out zs - size out;
                  internal_state := internal_state zs |} |}.

(** A codec that fails at once with the result [r]. *)
Definition failing_inflate (r : Z) (zs : z_stream) (flush : Z) : inflated :=
  {| ret := r; decomp_buffer := ""; stream := zs |}.

(** A parser that knows three frames by name. *)
Definition sample_parse (data : string) : string + json :=
  if String.eqb data "hello" then
    inr (JObj [ ("op", JNum 10);
                ("d", JObj [ ("heartbeat_interval", JNum 41250) ]) ])
  else if String.eqb data "invalid session" then inr (JObj [ ("op", JNum 9) ])
  else if String.eqb data "ack" then inr (JObj [ ("op", JNum 11) ])
  else inl "syntax error".

Definition sample_dump (j : json) : string :=
  match json_find "op" j with
  | Some (JNum n) => "op " ++ fmt_int n
  | _ => "?"
  end.

Definition sample_HandleEvent (event : string) (j : json) (data : string) (s : State)
  : State := s.

(** A text form of JSON values that shows the whole of an object. *)
Fixpoint show (j : json) : string :=
  match j with
  | JNull => "null"
  | JBool true => "true"
  | JBool false => "false"
  | JNum n => fmt_int n
  | JStr text => "'" ++ text ++ "'"
  | JArr items =>
      "[" ++ fold_right (fun item rest => show item ++ " " ++ rest) "]" items
  | JObj members =>
      "{" ++ fold_right
               (fun member rest => fst member ++ ":" ++ show (snd member) ++ " " ++ rest)
               "}" members
  end.

(** A shard that has just connected and never had a session, at second
    [1000] of the clock; the previous IDENTIFY of the cluster was at [998]. *)
Definition fresh_client (comp : bool) : State :=
  {| shard_id := 0; max_shards := 1; token := "secret"; intents := 513;
     compressed := comp; last_heartbeat := 1000; heartbeat_interval := 0;
     reconnects := 0; resumes := 0; last_seq := 0; sessionid := "";
     decompressed_total := 0; decompressed := "";
     d_stream := {| next_in := ""; avail_in := 0; avail_out := 0;
                    internal_state := 0%N |};
     ready := false; connect_time := 0; last_heartbeat_ack := 1000;
     message_queue := []; ws_state := CONNECTED;
     creator := {| last_identify := 998; dispatch_log := true |};
     clock := 1000; trace := [] |}.

(** A shard in an established session ["abc"] at sequence [42], at second
    [now] of the clock, with the given heartbeat interval, time of the last
    ACK and outbound queue; the last heartbeat went out at second [1000]. *)
Definition live_client (now interval ack : Z) (queue : list string) : State :=
  {| shard_id := 0; max_shards := 1; token := "secret"; intents := 513;
     compressed := false; last_heartbeat := 1000; heartbeat_interval := interval;
     reconnects := 1; resumes := 0; last_seq := 42; sessionid := "abc";
     decompressed_total := 0; decompressed := "";
     d_stream := {| next_in := ""; avail_in := 0; avail_out := 0;
                    internal_state := 0%N |};
     ready := true; connect_time := 900; last_heartbeat_ack := ack;
     message_queue := queue; ws_state := CONNECTED;
     creator := {| last_identify := 900; dispatch_log := true |};
     clock := now; trace := [] |}.

(** A parser that knows some more frames by name. *)
Definition sample_parse2 (data : string) : string + json :=
  if String.eqb data "reconnect" then inr (JObj [ ("op", JNum 7); ("s", JNull) ])
  else if String.eqb data "heartbeat request" then
    inr (JObj [ ("op", JNum 1); ("s", JNum 43) ])
  else if String.eqb data "ack 43" then
    inr (JObj [ ("op", JNum 11); ("s", JNum 43) ])
  else if String.eqb data "bad seq" then
    inr (JObj [ ("op", JNum 11); ("s", JStr "43") ])
  else if String.eqb data "bad hello" then
    inr (JObj [ ("op", JNum 10);
                ("d", JObj [ ("heartbeat_interval", JStr "soon") ]) ])
  else if String.eqb data "ready" then
    inr (JObj [ ("op", JNum 0); ("t", JStr "READY"); ("s", JNum 1) ])
  else sample_parse data.

(** A parser that knows a RECONNECT carrying the sequence number zero. *)
Definition sample_parse3 (data : string) : string + json :=
  if String.eqb data "reconnect 0" then inr (JObj [ ("op", JNum 7); ("s", JNum 0) ])
  else sample_parse2 data.

(** An event handler that marks the client ready. *)
Definition ready_HandleEvent (event : string) (j : json) (data : string) (s : State)
  : State := set_ready true s.

(** A shard with the given id and nothing else of note. *)
Definition sample_shard (id : Z) : State :=
  DiscordClient_new (fresh_client false) {| last_identify := 0; dispatch_log := false |}
    id 2 "secret" 0 false.

(** An [inflateInit] and an [inflateEnd] that succeed and leave the stream
    in state 0. *)
Definition sample_inflateInit (zs : z_stream) : Z * z_stream :=
  (Z_OK, {| next_in := next_in zs; avail_in := avail_in zs;
            avail_out := avail_out zs; internal_state := 0%N |}).

Definition sample_inflateEnd (zs : z_stream) : Z * z_stream := (Z_OK, zs).



(** The shared part of a cluster whose last IDENTIFY went out at second
    998, two seconds ago. *)
Definition sample_shared : Shared :=
  {| the_cluster := {| last_identify := 998; dispatch_log := false |};
     now := 1000; calls := [] |}.

(** The four bytes [00 00 FF FF], in two halves. *)
Definition trailer_head : string := String "000" (String "000" EmptyString).
Definition trailer_tail : string := String "255" (String "255" EmptyString).
Definition trailer_text : string := trailer_head ++ trailer_tail.

Section Gateway.

(** zlib's [inflate(&d_stream, flush)]. *)
Variable inflate : z_stream -> Z -> inflated.

(** [json::parse]: the parsed value, or [what()] of the exception. *)
Variable parse : string -> string + json.

(** [json::dump]. *)
Variable dump : json -> string.

(** [DiscordClient::HandleEvent], defined in another file. *)
Variable HandleEvent : string -> json -> string -> State -> State.

(** *** HandleFrame: inflation *)

(** The call of line 140, with the output buffer reset before it. *)
Definition inflate_call (s : State) : inflated :=
  inflate (set_avail_out DECOMP_BUFFER_SIZE (d_stream s)) Z_NO_FLUSH.

(** How one round of the [do ... while] ends. *)
Inductive round : Type :=
| Again (s : State)         (* [avail_out == 0]: another round *)
| Done (s : State)          (* the loop is left *)
| Return (o : outcome).     (* [return] inside the [switch] *)

(** One round of the inflate loop (lines 137-168). *)
Definition inflate_round (s : State) : round :=
  let r := inflate_call s in
  let have := DECOMP_BUFFER_SIZE - avail_out (stream r) in
  let s := set_d_stream (stream r) s in
  if (ret r =? Z_NEED_DICT) || (ret r =? Z_STREAM_ERROR) then
    Return (Returned true (close (Error 6000 s)))
  else if ret r =? Z_DATA_ERROR then
    Return (Returned true (close (Error 6001 s)))
  else if ret r =? Z_MEM_ERROR then
    Return (Returned true (close (Error 6002 s)))
  else
    let s :=
      if ret r =? Z_OK then
        set_decompressed_total (uint64 (decompressed_total s + have))
          (set_decompressed
             (decompressed s ++ substring 0 (Z.to_nat have) (decomp_buffer r)) s)
      else s in
    if avail_out (d_stream s) =? 0 then Again s else Done s.

Fixpoint inflate_loop (fuel : nat) (s : State) : outcome + State :=
  match fuel with
  | O => inl OutOfFuel
  | S fuel' =>
      match inflate_round s with
      | Again s => inflate_loop fuel' s
      | Done s => inr s
      | Return o => inl o
      end
  end.

(** The state in which round number [n] (from 0) of the loop begins, as
    long as the loop is still running. *)
Fixpoint round_start (n : nat) (s : State) : option State :=
  match n with
  | O => Some s
  | S k =>
      match inflate_round s with
      | Again s => round_start k s
      | _ => None
      end
  end.

(** The [if (compressed)] block (lines 128-174): the text to parse and
    the state it is parsed in, or the way [HandleFrame] ended. The block
    also stores the text into the caller's [buffer], which the client does
    not read again. *)
Definition decode_frame (fuel : nat) (buffer : string) (s : State)
  : outcome + (string * State) :=
  if compressed s then
    match frame_complete buffer with
    | None => inl OutOfBounds
    | Some true =>
        match inflate_loop fuel (inflate_start buffer s) with
        | inl o => inl o
        | inr s => inr (decompressed s, s)
        end
    | Some false => inl (Returned false s)
    end
  else inr (buffer, s).

(** *** HandleFrame: the gateway envelope *)

Definition capture (field : option Z) (set : Z -> State -> State) (s : State)
  : State :=
  match field with
  | Some n => set n s
  | None => s
  end.

(** The branch taken for a resumable session (lines 211-222). *)
Definition send_resume (s : State) : State :=
  let s := log ll_debug
             ("Resuming session " ++ sessionid s ++ " with seq="
                ++ fmt_int (last_seq s)) s in
  let s := write (dump (resume_obj s)) s in
  set_resumes (uint32 (resumes s + 1)) s.

(** The full connect once the throttle has let it through
    (lines 230-255). *)
Definition send_identify (s : State) : State :=
  let s := log ll_debug "Connecting new session..." s in
  let s := write (dump (identify_obj s)) s in
  let s := set_creator {| last_identify := clock s;
                          dispatch_log := dispatch_log (creator s) |} s in
  let s := set_connect_time (last_identify (creator s)) s in
  set_reconnects (uint32 (reconnects s + 1)) s.

(** Opcode 10, also reached from opcode 9 (lines 203-258). *)
Definition hello (fuel : nat) (j : json) (s : State) : outcome :=
  match frame_heartbeat_interval j with
  | inl e => Thrown e s
  | inr interval =>
      let s := capture interval set_heartbeat_interval s in
      if resumable s then
        let s := send_resume s in
        Returned true (set_last_heartbeat_ack (clock s) s)
      else
        match identify_gate fuel s with
        | None => OutOfFuel
        | Some s =>
            let s := send_identify s in
            Returned true (set_last_heartbeat_ack (clock s) s)
        end
  end.

(** Opcode 9 up to the fall through (lines 196-202). *)
Definition invalid_session (s : State) : State :=
  let s := log ll_debug
             ("Failed to resume session " ++ sessionid s ++ ", will reidentify") s in
  let s := set_sessionid "" s in
  set_last_seq 0 s.

(** The [switch (op)] (lines 195-274). *)
Definition dispatch (fuel : nat) (op : Z) (j : json) (data : string) (s : State)
  : outcome :=
  if op =? 9 then hello fuel j (invalid_session s)
  else if op =? 10 then hello fuel j s
  else if op =? 0 then
    match present "t" j with
    | Some t =>
        match get_string t with
        | inr event => Returned true (HandleEvent event j data s)
        | inl e => Thrown e s
        end
    | None => Returned true (HandleEvent "" j data s)
    end
  else if op =? 7 then
    let s := log ll_debug
               ("Reconnection requested, closing socket " ++ sessionid s) s in
    let s := set_message_queue [] s in
    Returned true (close_socket s)
  else if op =? 11 then Returned true (set_last_heartbeat_ack (clock s) s)
  else Returned true s.

Definition parse_error_message (what data : string) : string :=
  "DiscordClient::HandleFrame " ++ what ++ " [" ++ data ++ "]".

(** From the trace log to the end of the function (lines 177-276). *)
Definition handle_text (fuel : nat) (data : string) (s : State) : outcome :=
  let s := log ll_trace ("R: " ++ data) s in
  match parse data with
  | inl what => Returned true (log ll_error (parse_error_message what data) s)
  | inr j =>
      match frame_seq j with
      | inl e => Thrown e s
      | inr seq =>
          let s := capture seq set_last_seq s in
          match json_find "op" j with
          | Some v =>
              match get_uint32 v with
              | inr op => dispatch fuel op j data s
              | inl e => Thrown e s
              end
          | None => Returned true s
          end
      end
  end.

Definition HandleFrame (fuel : nat) (buffer : string) (s : State) : outcome :=
  match decode_frame fuel buffer s with
  | inl o => o
  | inr (data, s) => handle_text fuel data s
  end.

(** *** OneSecondTimer *)

(** Lines 397-404. *)
Definition heartbeat (s : State) : State :=
  if negb (heartbeat_interval s =? 0) && negb (last_seq s =? 0) then
    if heartbeat_due s then
      let s := QueueMessage (dump (heartbeat_obj s)) true s in
      let s := set_last_heartbeat (clock s) s in
      garbage_collection s
    else s
  else s.

Definition missed_ack_message (s : State) : string :=
  "Missed heartbeat ACK, forcing reconnection to session " ++ sessionid s.

Definition OneSecondTimer (s : State) : State :=
  if IsConnected s then
    if ack_missed s then
      let s := log ll_warning (missed_ack_message s) s in
      let s := set_message_queue [] s in
      close_socket s
    else heartbeat (drain s)
  else s.

(** *** Vocabulary of the statements, continued *)

(** Every exit after the frame test either reports the frame consumed or
    leaves with an exception (or, in the embedding, runs out of fuel). *)
Definition consumed_or_raised (o : outcome) : Prop :=
  match o with
  | Returned false _ => False
  | OutOfBounds => False
  | _ => True
  end.

(** The state in which the [switch] is entered: the text is logged and
    [last_seq] taken from the frame. *)
Definition at_switch (s1 : State) (data : string) (seq : option Z) : State :=
  capture seq set_last_seq (log ll_trace ("R: " ++ data) s1).

(** The state after the RESUME branch, and after the full connect. *)
Definition resumed (s : State) : State :=
  let s := send_resume s in set_last_heartbeat_ack (clock s) s.

Definition identified (s : State) : State :=
  let s := send_identify (gate_passed s) in set_last_heartbeat_ack (clock s) s.

(** *** The reconnect loop and zlib's life cycle (lines 77-115) *)

(** zlib's [inflateInit] and [inflateEnd]: the result code and the stream
    they leave. *)
Variable inflateInit : z_stream -> Z * z_stream.
Variable inflateEnd : z_stream -> Z * z_stream.

(** [SetupZLib]: the message of the [std::runtime_error] it throws, or the
    state with the stream initialised. The allocator fields it zeroes and
    the staging buffer it allocates are not part of [State]. *)
Definition SetupZLib (s : State) : string + State :=
  if compressed s then
    let (code, zs) := inflateInit (d_stream s) in
    if negb (code =? Z_OK) then inl "Can't initialise stream compression!"
    else inr (set_d_stream zs s)
  else inr s.

Definition EndZLib (s : State) : State :=
  if compressed s then set_d_stream (snd (inflateEnd (d_stream s))) s else s.

(** One turn of the loop of [ThreadRun] from the return of [ReadLoop] to
    the second [SetupZLib] (lines 107-111); the two [Connect] calls that
    follow belong to the transport. *)
Definition after_ReadLoop (s : State) : string + State :=
  let s := close s in
  let s := set_ready false s in
  let s := set_message_queue [] s in
  let s := EndZLib s in
  SetupZLib s.

(** *** Voice (lines 453-505) *)

(** Whether the library is built with [HAVE_VOICE]. *)
Variable HAVE_VOICE : bool.




(** *** The tick with the clock read anew at each call of [time] *)

(** Lines 397-404 with the two reads of the clock: [t_due] at the test of
    line 399, [t_set] at the assignment of line 401. *)
Definition heartbeat_reads (t_due t_set : Z) (s : State) : State :=
  if negb (heartbeat_interval s =? 0) && negb (last_seq s =? 0) then
    let s := set_clock t_due s in
    if heartbeat_due s then
      let s := QueueMessage (dump (heartbeat_obj s)) true s in
      let s := set_clock t_set s in
      let s := set_last_heartbeat (clock s) s in
      garbage_collection s
    else s
  else s.

(** [OneSecondTimer] with every read of the clock its own: [t_live] at the
    liveness test, [t_loop] at the tests of the drain loop, [t_due] and
    [t_set] in the heartbeat step. [OneSecondTimer] above is the tick that
    begins and ends within one second. *)
Definition OneSecondTimer_reads (t_live : Z) (t_loop : list Z) (t_due t_set : Z)
    (s : State) : State :=
  if IsConnected s then
    let s := set_clock t_live s in
    if ack_missed s then
      let s := log ll_warning (missed_ack_message s) s in
      let s := set_message_queue [] s in
      close_socket s
    else heartbeat_reads t_due t_set (drain_loop 0 t_loop s)
  else s.

(** *** Two shards of one cluster in the full connect *)

(** The full connect after the throttle, in the two parts between which
    another thread can run: the write of the IDENTIFY (lines 230-253) and the
    stores to [last_identify], [connect_time] and [reconnects] (lines
    254-255). *)
Definition identify_write (s : State) : State :=
  let s := log ll_debug "Connecting new session..." s in
  write (dump (identify_obj s)) s.

Definition identify_store (s : State) : State :=
  let s := set_creator {| last_identify := clock s;
                          dispatch_log := dispatch_log (creator s) |} s in
  let s := set_connect_time (last_identify (creator s)) s in
  set_reconnects (uint32 (reconnects s + 1)) s.

(** The stores, and the assignment of line 257 that ends the case. *)
Definition identify_finish (s : State) : State :=
  let s := identify_store s in
  set_last_heartbeat_ack (clock s) s.

(** What a run of two shards leaves: the shared part, the two shards, and
    the state in which the second shard wrote its IDENTIFY. *)
Record raced : Type := mk_raced {
  shared_after : Shared;
  first_after : State;
  second_after : State;
  second_writing : State
}.

(** One interleaving of two shards [a] and [b] of a cluster that are both
    in the full connect: [a] passes the throttle, [b] passes the throttle,
    [a] writes and stores, then [b] writes and stores. Each shard handles
    its frames on a thread of its own ([Run], lines 118-122) and runs its
    steps in the order of the source; the source has no lock around
    [last_identify], so nothing keeps the steps of [b] out from between
    those of [a]. *)
Definition identify_race (fuel : nat) (w : Shared) (a b : State) : option raced :=
  match identify_gate fuel (resume_on w a) with
  | None => None
  | Some a =>
      match identify_gate fuel (resume_on (shared_of a) b) with
      | None => None
      | Some b =>
          let a := identify_finish (identify_write (resume_on (shared_of b) a)) in
          let b_writes := resume_on (shared_of a) b in
          let b := identify_finish (identify_write b_writes) in
          Some {| shared_after := shared_of b; first_after := a;
                  second_after := b; second_writing := b_writes |}
      end
  end.

(** *** Further vocabulary, continued *)

(** What the inflate loop keeps true of the byte counter: it has grown, as
    a [uint64_t], by the length of the accumulated text. *)
Definition counted (total0 : Z) (s : State) : Prop :=
  0 <= decompressed_total s < 2 ^ 64
  /\ decompressed_total s = uint64 (total0 + size (decompressed s)).

(** ** Properties *)

(** Reduction of field reads through the setters, and nothing else. *)
Ltac fields :=
  cbn [shard_id max_shards token intents compressed last_heartbeat
       heartbeat_interval reconnects resumes last_seq sessionid
       decompressed_total decompressed d_stream ready connect_time
       last_heartbeat_ack message_queue ws_state creator clock trace
       set_last_heartbeat set_heartbeat_interval set_reconnects set_resumes
       set_last_seq set_sessionid set_decompressed_total set_decompressed
       set_d_stream set_connect_time set_last_heartbeat_ack
       set_message_queue set_creator set_clock set_trace
       last_identify dispatch_log next_in avail_in avail_out internal_state
       set_input set_avail_out] in *.

(** *** Traces and logging *)

Lemma written_app (t u : list (Z * event)) :
  written (t ++ u) = (written t ++ written u)%list.
Proof.
  induction t as [|[at_time e] t IH]; [reflexivity|].
  destruct e; simpl; rewrite IH; reflexivity.
Qed.

Lemma closes_app (t u : list (Z * event)) :
  closes (t ++ u) = (closes t ++ closes u)%list.
Proof.
  induction t as [|[at_time e] t IH]; [reflexivity|].
  destruct e; simpl; rewrite IH; reflexivity.
Qed.

Lemma written_log_entry severity msg s : written (log_entry severity msg s) = [].
Proof. unfold log_entry. destruct (dispatch_log (creator s)); reflexivity. Qed.

Lemma closes_log_entry severity msg s : closes (log_entry severity msg s) = [].
Proof. unfold log_entry. destruct (dispatch_log (creator s)); reflexivity. Qed.

(** [log] touches nothing but the trace. *)
Lemma log_eq severity msg s :
  log severity msg s = set_trace (trace s ++ log_entry severity msg s)%list s.
Proof.
  unfold log, log_entry, emit.
  destruct (dispatch_log (creator s)); [reflexivity|].
  rewrite app_nil_r. destruct s; reflexivity.
Qed.

(** Reduction of the states that reach the [switch]. *)
Ltac session :=
  unfold at_switch, invalid_session, capture;
  rewrite ?log_eq; unfold with_codec, log_entry; fields.

(** *** The inflate loop *)

Lemma with_codec_self s : with_codec s s = s.
Proof. destruct s; reflexivity. Qed.

Lemma with_codec_twice c c' s : with_codec c (with_codec c' s) = with_codec c s.
Proof. reflexivity. Qed.

Lemma inflate_start_codec buffer s :
  inflate_start buffer s = with_codec (inflate_start buffer s) s.
Proof. destruct s; reflexivity. Qed.

Lemma Again_inj a b : Again a = Again b -> a = b.
Proof. intros [= ->]. reflexivity. Qed.

Lemma Done_inj a b : Done a = Done b -> a = b.
Proof. intros [= ->]. reflexivity. Qed.

Lemma Return_inj a b : Return a = Return b -> a = b.
Proof. intros [= ->]. reflexivity. Qed.

Lemma inflate_round_Again s s' :
  inflate_round s = Again s' -> s' = with_codec s' s.
Proof.
  unfold inflate_round.
  destruct (_ || _); [discriminate|].
  destruct (_ =? Z_DATA_ERROR); [discriminate|].
  destruct (_ =? Z_MEM_ERROR); [discriminate|].
  destruct (_ =? Z_OK); fields;
    (destruct (_ =? 0); [|discriminate]);
    intros H; apply Again_inj in H; subst s'; destruct s; reflexivity.
Qed.

Lemma inflate_round_Done s s' :
  inflate_round s = Done s' -> s' = with_codec s' s.
Proof.
  unfold inflate_round.
  destruct (_ || _); [discriminate|].
  destruct (_ =? Z_DATA_ERROR); [discriminate|].
  destruct (_ =? Z_MEM_ERROR); [discriminate|].
  destruct (_ =? Z_OK); fields;
    (destruct (_ =? 0); [discriminate|]);
    intros H; apply Done_inj in H; subst s'; destruct s; reflexivity.
Qed.

(** A [return] inside the loop is one of the three failure exits. *)
Lemma inflate_round_Return s o :
  inflate_round s = Return o ->
  exists code,
    o = Returned true (close (Error code (set_d_stream (stream (inflate_call s)) s))).
Proof.
  unfold inflate_round.
  destruct (_ || _); [intros H; apply Return_inj in H; eauto|].
  destruct (_ =? Z_DATA_ERROR); [intros H; apply Return_inj in H; eauto|].
  destruct (_ =? Z_MEM_ERROR); [intros H; apply Return_inj in H; eauto|].
  destruct (_ =? 0); discriminate.
Qed.

Lemma inflate_round_failure s code :
  zlib_failure (ret (inflate_call s)) code ->
  inflate_round s
  = Return (Returned true (close (Error code (set_d_stream (stream (inflate_call s)) s)))).
Proof.
  unfold inflate_round, zlib_failure. cbv zeta.
  intros [[[H|H] ->] | [[H ->] | [H ->]]]; rewrite H; reflexivity.
Qed.

Lemma round_start_codec n : forall s s1,
  round_start n s = Some s1 -> s1 = with_codec s1 s.
Proof.
  induction n as [|n IH]; simpl; intros s s1 H.
  - inversion H. symmetry. apply with_codec_self.
  - destruct (inflate_round s) as [s2| |] eqn:R; try discriminate.
    apply IH in H. apply inflate_round_Again in R.
    rewrite H, R. reflexivity.
Qed.

Lemma inflate_loop_codec fuel : forall s s1,
  inflate_loop fuel s = inr s1 -> s1 = with_codec s1 s.
Proof.
  induction fuel as [|fuel IH]; simpl; intros s s1 H; [discriminate|].
  destruct (inflate_round s) as [s2|s2|o] eqn:R.
  - apply IH in H. apply inflate_round_Again in R. rewrite H, R. reflexivity.
  - inversion H; subst. apply inflate_round_Done. assumption.
  - discriminate.
Qed.

(** Fuel for [n] rounds brings the loop to the start of round [n]. *)
Lemma inflate_loop_round_start n : forall s s1 fuel,
  round_start n s = Some s1 ->
  inflate_loop (n + fuel) s = inflate_loop fuel s1.
Proof.
  induction n as [|n IH]; simpl; intros s s1 fuel H.
  - inversion H. reflexivity.
  - destruct (inflate_round s) as [s2| |]; try discriminate.
    apply IH. assumption.
Qed.

(** C7. During the inflation of a complete compressed frame, whenever a
    round of the loop gets [Z_STREAM_ERROR] or [Z_NEED_DICT] from zlib,
    [Error(6000)] is called, for [Z_DATA_ERROR] [Error(6001)] and for
    [Z_MEM_ERROR] [Error(6002)]; the error goes to the log with its text,
    the transport is closed right after, and [HandleFrame] returns [true]
    (frame consumed). Nothing else is logged, written or closed. *)
Theorem zlib_failure_logged_and_closed :
  forall buffer s n s1 code fuel,
    compressed s = true ->
    frame_complete buffer = Some true ->
    round_start n (inflate_start buffer s) = Some s1 ->
    zlib_failure (ret (inflate_call s1)) code ->
    (n < fuel)%nat ->
    In (code, error_message code)
       [ (6000, "OOF! Error from underlying websocket: 6000: ZLib Stream Error");
         (6001, "OOF! Error from underlying websocket: 6001: ZLib Data Error");
         (6002, "OOF! Error from underlying websocket: 6002: ZLib Memory Error") ]
    /\ exists s',
        HandleFrame fuel buffer s = Returned true s'
        /\ s' = close (Error code (set_d_stream (stream (inflate_call s1)) s1))
        /\ trace s'
           = (trace s ++ log_entry ll_warning (error_message code) s
                ++ [(clock s, EvClose)])%list.
Proof.
  intros buffer s n s1 code fuel Hc Hf Hn Hz Hfuel.
  split.
  { destruct Hz as [[_ ->] | [[_ ->] | [_ ->]]]; simpl; auto. }
  eexists. split; [|split; [reflexivity|]].
  - unfold HandleFrame, decode_frame. rewrite Hc, Hf.
    replace fuel with (n + S (fuel - S n))%nat by lia.
    rewrite (inflate_loop_round_start _ _ _ _ Hn).
    cbn [inflate_loop]. rewrite (inflate_round_failure _ _ Hz). reflexivity.
  - apply round_start_codec in Hn.
    rewrite inflate_start_codec, with_codec_twice in Hn.
    rewrite Hn. unfold close, Error, emit. rewrite log_eq.
    unfold with_codec, log_entry. fields. rewrite <- app_assoc. reflexivity.
Qed.

(** *** The frame boundary *)

Lemma length_bytes buffer : List.length (bytes buffer) = String.length buffer.
Proof.
  unfold bytes. rewrite length_map.
  induction buffer as [|c buffer IH]; simpl; congruence.
Qed.

Lemma get_nth_error buffer : forall n,
  String.get n buffer = nth_error (list_ascii_of_string buffer) n.
Proof.
  induction buffer as [|c buffer IH]; intros [|n]; simpl; auto.
Qed.

Lemma at_index_inside buffer pos :
  0 <= pos < size buffer ->
  at_index buffer pos = nth_error (bytes buffer) (Z.to_nat pos).
Proof.
  intros H. unfold at_index, bytes.
  destruct (Z.ltb_spec pos (size buffer)); [|lia].
  rewrite get_nth_error, nth_error_map.
  destruct (nth_error _ _); reflexivity.
Qed.

(** With fewer than four bytes the first index of the test wraps around
    in [size_t] and lies beyond the buffer. *)
Lemma byte_from_end_short buffer :
  size buffer < 4 ->
  uint64 (size buffer - 4) = 2 ^ 64 - 4 + size buffer
  /\ byte_from_end buffer 4 = None.
Proof.
  intros H. assert (0 <= size buffer) by (unfold size; lia).
  assert (E : uint64 (size buffer - 4) = 2 ^ 64 - 4 + size buffer).
  { unfold uint64.
    replace (size buffer - 4) with (2 ^ 64 - 4 + size buffer + (-1) * 2 ^ 64) by lia.
    rewrite Z.mod_add by lia. apply Z.mod_small. lia. }
  split; [exact E|].
  unfold byte_from_end, at_index. rewrite E.
  destruct (Z.ltb_spec (2 ^ 64 - 4 + size buffer) (size buffer)); [lia|].
  destruct (Z.eqb_spec (2 ^ 64 - 4 + size buffer) (size buffer)); [lia|].
  reflexivity.
Qed.

Lemma byte_from_end_final buffer k :
  4 <= size buffer < 2 ^ 64 ->
  1 <= k <= 4 ->
  byte_from_end buffer k = nth_error (final_bytes 4 buffer) (Z.to_nat (4 - k)).
Proof.
  intros H Hk. unfold byte_from_end, final_bytes, uint64.
  rewrite Z.mod_small by lia.
  rewrite at_index_inside by lia.
  rewrite nth_error_skipn. f_equal. unfold size in *. lia.
Qed.

Lemma final_bytes_four buffer :
  4 <= size buffer ->
  exists a b c d, final_bytes 4 buffer = [a; b; c; d].
Proof.
  intros H. unfold size in H.
  assert (L : List.length (final_bytes 4 buffer) = 4%nat).
  { unfold final_bytes. rewrite length_skipn, length_bytes. lia. }
  destruct (final_bytes 4 buffer) as [|a [|b [|c [|d [|e l]]]]];
    try discriminate. eauto.
Qed.

(** On a buffer of at least four bytes the test of lines 130-131 decides
    whether the last four bytes are [00 00 FF FF]. *)
Lemma frame_complete_spec buffer :
  4 <= size buffer < 2 ^ 64 ->
  frame_complete buffer = Some (ends_with_trailer buffer).
Proof.
  intros H. unfold frame_complete, byte_is, ends_with_trailer.
  rewrite (byte_from_end_final buffer 4), (byte_from_end_final buffer 3),
    (byte_from_end_final buffer 2), (byte_from_end_final buffer 1) by (auto; lia).
  destruct (final_bytes_four buffer) as (a & b & c & d & ->); [lia|].
  unfold sync_trailer.
  change (Z.to_nat (4 - 4)) with 0%nat. change (Z.to_nat (4 - 3)) with 1%nat.
  change (Z.to_nat (4 - 2)) with 2%nat. change (Z.to_nat (4 - 1)) with 3%nat.
  cbn [nth_error and_then].
  destruct (list_eq_dec _ _ _) as [E|E].
  - inversion E; subst. reflexivity.
  - destruct (Z.eqb_spec a 0); [subst|reflexivity].
    destruct (Z.eqb_spec b 0); [subst|reflexivity].
    destruct (Z.eqb_spec c 255); [subst|reflexivity].
    destruct (Z.eqb_spec d 255); [subst|reflexivity].
    contradiction E; reflexivity.
Qed.

(** *** Ways out of HandleFrame *)

Lemma hello_exit fuel j s : consumed_or_raised (hello fuel j s).
Proof.
  unfold hello.
  destruct (frame_heartbeat_interval j); [exact I|].
  destruct (resumable _); [exact I|].
  destruct (identify_gate _ _); exact I.
Qed.

Lemma dispatch_exit fuel op j data s : consumed_or_raised (dispatch fuel op j data s).
Proof.
  unfold dispatch.
  destruct (op =? 9); [apply hello_exit|].
  destruct (op =? 10); [apply hello_exit|].
  destruct (op =? 0).
  { destruct (present "t" j); [destruct (get_string _)|]; exact I. }
  destruct (op =? 7); [exact I|].
  destruct (op =? 11); exact I.
Qed.

Lemma handle_text_exit fuel data s : consumed_or_raised (handle_text fuel data s).
Proof.
  unfold handle_text.
  destruct (parse data); [exact I|].
  destruct (frame_seq _); [exact I|].
  destruct (json_find "op" _); [|exact I].
  destruct (get_uint32 _); [exact I|apply dispatch_exit].
Qed.

Lemma inflate_loop_exit fuel : forall s o,
  inflate_loop fuel s = inl o -> consumed_or_raised o.
Proof.
  induction fuel as [|fuel IH]; simpl; intros s o H.
  - inversion H. exact I.
  - destruct (inflate_round s) as [s2|s2|o'] eqn:R.
    + eapply IH; eassumption.
    + discriminate.
    + inversion H; subst. apply inflate_round_Return in R as [code ->]. exact I.
Qed.

(** On a client without compression the buffer is the text. *)
Lemma uncompressed_frame fuel buffer s :
  compressed s = false -> HandleFrame fuel buffer s = handle_text fuel buffer s.
Proof. intros H. unfold HandleFrame, decode_frame. rewrite H. reflexivity. Qed.

(** C10. On a compressed client the completeness test reads
    [buffer[size-4]] .. [buffer[size-1]] with no check of the length. For
    every buffer shorter than four bytes the index [size() - 4] wraps
    around in [size_t] and the read is outside the buffer, whatever the
    client state; from four bytes on [HandleFrame] reads inside the
    buffer only. A total [HandleFrame] therefore needs buffers of at least
    four bytes. *)
Theorem short_buffer_read_out_of_bounds :
  forall fuel buffer s,
    compressed s = true ->
    size buffer < 2 ^ 64 ->
    (size buffer < 4 ->
     uint64 (size buffer - 4) = 2 ^ 64 - 4 + size buffer
     /\ byte_from_end buffer 4 = None
     /\ HandleFrame fuel buffer s = OutOfBounds)
    /\ (4 <= size buffer -> HandleFrame fuel buffer s <> OutOfBounds).
Proof.
  intros fuel buffer s Hc Hmax. split.
  - intros Hshort. destruct (byte_from_end_short _ Hshort) as [E N].
    repeat split; [exact E|exact N|].
    unfold HandleFrame, decode_frame, frame_complete, byte_is.
    rewrite Hc, N. reflexivity.
  - intros Hlong. unfold HandleFrame, decode_frame.
    rewrite Hc, frame_complete_spec by lia.
    destruct (ends_with_trailer buffer); [|discriminate].
    destruct (inflate_loop _ _) as [o|s1] eqn:L.
    + apply inflate_loop_exit in L. intros ->. exact L.
    + intros H. pose proof (handle_text_exit fuel (decompressed s1) s1) as X.
      rewrite H in X. exact X.
Qed.

(** *** Decoding leaves the session alone *)

Lemma decode_frame_codec fuel buffer s data s1 :
  decode_frame fuel buffer s = inr (data, s1) -> s1 = with_codec s1 s.
Proof.
  unfold decode_frame.
  destruct (compressed s).
  - destruct (frame_complete buffer) as [[|]|]; try discriminate.
    destruct (inflate_loop _ _) as [o|s2] eqn:L; [discriminate|].
    intros H. inversion H; subst.
    apply inflate_loop_codec in L.
    rewrite inflate_start_codec, with_codec_twice in L. exact L.
  - intros H. inversion H; subst. symmetry. apply with_codec_self.
Qed.

(** C9. A decoded text that [json::parse] rejects is logged at error
    level together with the payload, [HandleFrame] returns [true] (the
    frame is consumed and dropped), and the session is as before:
    [last_seq], [sessionid], [heartbeat_interval] and the timestamps keep
    their values, nothing is written and the transport is not closed. The
    only fields that differ from the state before the call are the trace,
    which gained the two log entries, and the decompressor's. *)
Theorem unparseable_frame_dropped :
  forall fuel buffer s data s1 what,
    decode_frame fuel buffer s = inr (data, s1) ->
    parse data = inl what ->
    exists s',
      HandleFrame fuel buffer s = Returned true s'
      /\ trace s'
         = (trace s ++ log_entry ll_trace ("R: " ++ data) s
              ++ log_entry ll_error
                   ("DiscordClient::HandleFrame " ++ what ++ " [" ++ data ++ "]") s)%list
      /\ closes (trace s') = closes (trace s)
      /\ written (trace s') = written (trace s)
      /\ last_seq s' = last_seq s
      /\ sessionid s' = sessionid s
      /\ heartbeat_interval s' = heartbeat_interval s
      /\ last_heartbeat s' = last_heartbeat s
      /\ last_heartbeat_ack s' = last_heartbeat_ack s
      /\ connect_time s' = connect_time s
      /\ last_identify (creator s') = last_identify (creator s)
      /\ s' = with_codec s1 (set_trace (trace s') s).
Proof.
  intros fuel buffer s data s1 what Hd Hp.
  exists (log ll_error (parse_error_message what data)
            (log ll_trace ("R: " ++ data) s1)).
  split.
  { unfold HandleFrame. rewrite Hd. unfold handle_text. rewrite Hp. reflexivity. }
  apply decode_frame_codec in Hd.
  assert (exists c, s1 = with_codec c s) as [c ->] by (exists s1; exact Hd).
  clear Hd.
  rewrite !log_eq. unfold with_codec, log_entry, parse_error_message. fields.
  rewrite <- !app_assoc.
  split; [reflexivity|].
  rewrite !closes_app, !written_app.
  destruct (dispatch_log (creator s)); cbn [closes written];
    rewrite !app_nil_r; repeat (split; [reflexivity|]);
    destruct s; reflexivity.
Qed.

(** *** The identify throttle *)

Lemma written_gate_wait s : written (gate_wait s) = [].
Proof.
  unfold gate_wait. destruct (_ <? _); [|reflexivity].
  cbv zeta. rewrite written_app, written_log_entry. reflexivity.
Qed.

Lemma identify_gate_open fuel s :
  last_identify (creator s) + 5 <= clock s -> identify_gate fuel s = Some s.
Proof.
  intros H. destruct fuel; simpl;
    destruct (Z.ltb_spec (clock s) (last_identify (creator s) + 5)); auto; lia.
Qed.

(** Whatever the fuel, the throttle lets the shard through only once five
    seconds have passed since [last_identify]. *)
Lemma identify_gate_waits fuel : forall s s',
  identify_gate fuel s = Some s' ->
  last_identify (creator s') + 5 <= clock s'
  /\ last_identify (creator s') = last_identify (creator s).
Proof.
  induction fuel as [|fuel IH]; simpl; intros s s';
    destruct (Z.ltb_spec (clock s) (last_identify (creator s) + 5)) as [Hlt|Hge];
    try discriminate;
    try (intros E; injection E as <-; split; [lia|reflexivity]).
  intros E. apply IH in E. revert E.
  unfold sleep_for, emit. rewrite log_eq. fields. tauto.
Qed.

(** A wait that fits [uint32_t] ends the throttle after one sleep. *)
Lemma identify_gate_terminates fuel s :
  last_identify (creator s) + 5 - clock s < 2 ^ 32 ->
  (1 <= fuel)%nat ->
  identify_gate fuel s = Some (gate_passed s).
Proof.
  intros Hfit Hfuel. destruct fuel as [|fuel]; [lia|].
  unfold gate_passed, gate_wait. simpl.
  destruct (Z.ltb_spec (clock s) (last_identify (creator s) + 5)) as [Hlt|Hge].
  - unfold uint32. rewrite Z.mod_small by lia.
    rewrite identify_gate_open.
    + unfold sleep_for, emit. rewrite log_eq. fields.
      rewrite Z.max_r by lia. rewrite <- app_assoc.
      f_equal. destruct s; simpl. f_equal. lia.
    + unfold sleep_for, emit. rewrite log_eq. fields. lia.
  - rewrite app_nil_r, Z.max_l by lia. destruct s; reflexivity.
Qed.

(** *** HELLO and INVALID_SESSION *)

Lemma written_log severity msg s :
  written (trace (log severity msg s)) = written (trace s).
Proof.
  rewrite log_eq. fields. rewrite written_app, written_log_entry, app_nil_r.
  reflexivity.
Qed.

Lemma resumable_capture interval s :
  resumable (capture interval set_heartbeat_interval s) = resumable s.
Proof. destruct interval; reflexivity. Qed.

Lemma hello_resumes fuel j s interval :
  frame_heartbeat_interval j = inr interval ->
  resumable s = true ->
  hello fuel j s = Returned true (resumed (capture interval set_heartbeat_interval s)).
Proof.
  intros Hi Hr. unfold hello. rewrite Hi, resumable_capture, Hr. reflexivity.
Qed.

Lemma hello_identifies fuel j s interval :
  frame_heartbeat_interval j = inr interval ->
  resumable s = false ->
  last_identify (creator s) + 5 - clock s < 2 ^ 32 ->
  (1 <= fuel)%nat ->
  hello fuel j s = Returned true (identified (capture interval set_heartbeat_interval s)).
Proof.
  intros Hi Hr Hfit Hfuel. unfold hello. rewrite Hi, resumable_capture, Hr.
  rewrite identify_gate_terminates; [reflexivity| |assumption].
  destruct interval; exact Hfit.
Qed.

(** What the RESUME branch changes. *)
Lemma resumed_eq s :
  resumed s
  = set_last_heartbeat_ack (clock s)
      (set_resumes (uint32 (resumes s + 1))
         (set_trace
            (trace s
               ++ log_entry ll_debug
                    ("Resuming session " ++ sessionid s ++ " with seq="
                       ++ fmt_int (last_seq s)) s
               ++ [(clock s, EvWrite (dump (resume_obj s)))])%list s)).
Proof.
  unfold resumed, send_resume, write, emit. rewrite log_eq.
  unfold resume_obj, log_entry. fields. rewrite <- app_assoc. reflexivity.
Qed.

(** What the full connect changes: the wait of the throttle, then the
    IDENTIFY, stamped with the second at which the throttle opened. *)
Lemma identified_eq s :
  let now := Z.max (clock s) (last_identify (creator s) + 5) in
  identified s
  = set_last_heartbeat_ack now
      (set_reconnects (uint32 (reconnects s + 1))
         (set_connect_time now
            (set_creator {| last_identify := now;
                            dispatch_log := dispatch_log (creator s) |}
               (set_clock now
                  (set_trace
                     (trace s ++ gate_wait s
                        ++ (if dispatch_log (creator s)
                            then [(now, EvLog ll_debug "Connecting new session...")]
                            else [])
                        ++ [(now, EvWrite (dump (identify_obj s)))])%list s))))).
Proof.
  unfold identified, send_identify, write, emit. rewrite log_eq.
  unfold gate_passed, identify_obj, identify_d, log_entry. fields.
  rewrite <- !app_assoc. reflexivity.
Qed.

Lemma Some_inj (A : Type) (a b : A) : Some a = Some b -> a = b.
Proof. intros H. congruence. Qed.

(** The frames that reach the [switch]. *)
Lemma HandleFrame_dispatch fuel buffer s data s1 j v seq op :
  decode_frame fuel buffer s = inr (data, s1) ->
  parse data = inr j ->
  frame_seq j = inr seq ->
  json_find "op" j = Some v ->
  get_uint32 v = inr op ->
  HandleFrame fuel buffer s = dispatch fuel op j data (at_switch s1 data seq)
  /\ exists c, s1 = with_codec c s.
Proof.
  intros Hd Hp Hs Hop Hv. unfold HandleFrame. rewrite Hd.
  unfold handle_text. rewrite Hp, Hs, Hop, Hv. split; [reflexivity|].
  apply decode_frame_codec in Hd. exists s1. exact Hd.
Qed.


(** The IDENTIFY payload written out: opcode 2, and in [d] the five
    members of lines 236-246, followed by [intents] when it is not zero. *)
Lemma identify_obj_eq s :
  JObj [ ("op", JNum 2);
         ("d", JObj ([ ("token", JStr (token s));
                       ("properties", JObj [ ("$os", JStr "Linux");
                                             ("$browser", JStr "D++");
                                             ("$device", JStr "D++") ]);
                       ("shard", JArr [ JNum (shard_id s); JNum (max_shards s) ]);
                       ("compress", JBool false);
                       ("large_threshold", JNum 250) ]
                       ++ (if intents s =? 0 then []
                           else [ ("intents", JNum (intents s)) ]))) ]
  = identify_obj s.
Proof.
  unfold identify_obj, identify_d. destruct (intents s =? 0); reflexivity.
Qed.

(** C1. On a HELLO frame (op 10) whose [s] and [d.heartbeat_interval],
    where present, are numbers, [HandleFrame] writes exactly one message:
    a RESUME (op 6) with [{token, session_id, seq}] if [sessionid] is not
    empty and [last_seq], as updated from the frame's [s], is not zero, and
    [resumes] is then incremented; otherwise an IDENTIFY, the object with
    opcode 2 and the [d] of lines 236-251, and [reconnects] is then
    incremented. In both cases [last_heartbeat_ack] ends up as the current
    time. *)
Theorem hello_sends_resume_or_identify :
  forall fuel buffer s data s1 j v seq interval,
    decode_frame fuel buffer s = inr (data, s1) ->
    parse data = inr j ->
    frame_seq j = inr seq ->
    json_find "op" j = Some v ->
    get_uint32 v = inr 10 ->
    frame_heartbeat_interval j = inr interval ->
    last_identify (creator s) + 5 - clock s < 2 ^ 32 ->
    (1 <= fuel)%nat ->
    let sequence := match seq with Some n => n | None => last_seq s end in
    exists s',
      HandleFrame fuel buffer s = Returned true s'
      /\ last_heartbeat_ack s' = clock s'
      /\ heartbeat_interval s'
         = match interval with Some n => n | None => heartbeat_interval s end
      /\ if negb (sequence =? 0) && negb (empty (sessionid s)) then
           written (trace s')
           = (written (trace s)
                ++ [dump (JObj [ ("op", JNum 6);
                                 ("d", JObj [ ("token", JStr (token s));
                                              ("session_id", JStr (sessionid s));
                                              ("seq", JNum sequence) ]) ])])%list
           /\ resumes s' = uint32 (resumes s + 1)
           /\ reconnects s' = reconnects s
         else
           written (trace s')
           = (written (trace s)
                ++ [dump (JObj [ ("op", JNum 2);
                                 ("d", JObj ([ ("token", JStr (token s));
                                               ("properties",
                                                JObj [ ("$os", JStr "Linux");
                                                       ("$browser", JStr "D++");
                                                       ("$device", JStr "D++") ]);
                                               ("shard", JArr [ JNum (shard_id s);
                                                                JNum (max_shards s) ]);
                                               ("compress", JBool false);
                                               ("large_threshold", JNum 250) ]
                                               ++ (if intents s =? 0 then []
                                                   else [ ("intents",
                                                           JNum (intents s)) ]))) ])])%list
           /\ resumes s' = resumes s
           /\ reconnects s' = uint32 (reconnects s + 1).
Proof.
  intros fuel buffer s data s1 j v seq interval Hd Hp Hs Hop Hv Hi Hfit Hfuel sequence.
  rewrite (identify_obj_eq s).
  destruct (HandleFrame_dispatch _ _ _ _ _ _ _ _ _ Hd Hp Hs Hop Hv) as [-> [c ->]].
  clear Hd.
  change (dispatch fuel 10 j data (at_switch (with_codec c s) data seq))
    with (hello fuel j (at_switch (with_codec c s) data seq)).
  assert (R : resumable (at_switch (with_codec c s) data seq)
              = negb (sequence =? 0) && negb (empty (sessionid s))).
  { subst sequence. unfold resumable. destruct seq; session; reflexivity. }
  destruct (negb (sequence =? 0) && negb (empty (sessionid s))).
  - rewrite (hello_resumes _ _ _ _ Hi R). eexists. split; [reflexivity|].
    rewrite resumed_eq. subst sequence. unfold resume_obj.
    destruct seq, interval; session; rewrite !written_app;
      (destruct (dispatch_log (creator s)); cbn [written app];
       rewrite ?app_nil_r; repeat split; reflexivity).
  - rewrite (hello_identifies _ _ _ _ Hi R); [| |assumption].
    2:{ destruct seq; session; assumption. }
    eexists. split; [reflexivity|].
    rewrite identified_eq. cbv zeta. unfold identify_obj, identify_d.
    destruct seq, interval; session;
      rewrite !written_app, ?written_gate_wait;
      (destruct (dispatch_log (creator s)); cbn [written app];
       rewrite ?app_nil_r; repeat split; reflexivity).
Qed.

(** C4. On an INVALID_SESSION frame (op 9) [HandleFrame] empties
    [sessionid], zeroes [last_seq] and runs the HELLO action on that state;
    the resume test is then false, so the one message written is an
    IDENTIFY (op 2) and no RESUME is sent. *)
Theorem invalid_session_reidentifies :
  forall fuel buffer s data s1 j v seq interval,
    decode_frame fuel buffer s = inr (data, s1) ->
    parse data = inr j ->
    frame_seq j = inr seq ->
    json_find "op" j = Some v ->
    get_uint32 v = inr 9 ->
    frame_heartbeat_interval j = inr interval ->
    last_identify (creator s) + 5 - clock s < 2 ^ 32 ->
    (1 <= fuel)%nat ->
    let cleared := invalid_session (at_switch s1 data seq) in
    sessionid cleared = "" /\ last_seq cleared = 0
    /\ resumable cleared = false
    /\ HandleFrame fuel buffer s = hello fuel j cleared
    /\ exists s',
        HandleFrame fuel buffer s = Returned true s'
        /\ sessionid s' = "" /\ last_seq s' = 0
        /\ written (trace s') = (written (trace s) ++ [dump (identify_obj s)])%list
        /\ resumes s' = resumes s
        /\ last_heartbeat_ack s' = clock s'.
Proof.
  intros fuel buffer s data s1 j v seq interval Hd Hp Hs Hop Hv Hi Hfit Hfuel cleared.
  destruct (HandleFrame_dispatch _ _ _ _ _ _ _ _ _ Hd Hp Hs Hop Hv) as [-> [c E]].
  clear Hd.
  change (dispatch fuel 9 j data (at_switch s1 data seq)) with (hello fuel j cleared).
  assert (R : resumable cleared = false) by reflexivity.
  repeat (split; [reflexivity|]).
  rewrite (hello_identifies _ _ _ _ Hi R); [| |assumption].
  2:{ subst cleared s1. destruct seq; session; assumption. }
  eexists. split; [reflexivity|].
  rewrite identified_eq. cbv zeta. unfold identify_obj, identify_d.
  subst cleared s1.
  destruct seq, interval; session;
    rewrite !written_app, ?written_gate_wait;
    (destruct (dispatch_log (creator s)); cbn [written app];
     rewrite ?app_nil_r; repeat split; reflexivity).
Qed.

(** A shard that runs alone: whenever [HandleFrame] sends an IDENTIFY, on
    a HELLO frame without a resumable session or on an INVALID_SESSION
    frame, the message is written at a second [now] with
    [last_identify + 5 <= now]: the shard has slept until then if it had to.
    With the send, [last_identify] and [connect_time] become [now] and
    [reconnects] is incremented. Nothing is written before the IDENTIFY. *)
Lemma identify_throttled :
  forall fuel buffer s data s1 j v op seq interval,
    decode_frame fuel buffer s = inr (data, s1) ->
    parse data = inr j ->
    frame_seq j = inr seq ->
    json_find "op" j = Some v ->
    get_uint32 v = inr op ->
    frame_heartbeat_interval j = inr interval ->
    op = 9 \/ (op = 10 /\ resumable (at_switch s1 data seq) = false) ->
    last_identify (creator s) + 5 - clock s < 2 ^ 32 ->
    (1 <= fuel)%nat ->
    exists s' before,
      HandleFrame fuel buffer s = Returned true s'
      /\ trace s'
         = (trace s ++ before ++ [(clock s', EvWrite (dump (identify_obj s)))])%list
      /\ written before = []
      /\ (clock s < last_identify (creator s) + 5 ->
          In (clock s, EvSleep (last_identify (creator s) + 5 - clock s)) before)
      /\ last_identify (creator s) + 5 <= clock s'
      /\ clock s' = Z.max (clock s) (last_identify (creator s) + 5)
      /\ last_identify (creator s') = clock s'
      /\ connect_time s' = clock s'
      /\ reconnects s' = uint32 (reconnects s + 1).
Proof.
  intros fuel buffer s data s1 j v op seq interval Hd Hp Hs Hop Hv Hi Hop' Hfit Hfuel.
  destruct (HandleFrame_dispatch _ _ _ _ _ _ _ _ _ Hd Hp Hs Hop Hv) as [-> [c E]].
  clear Hd.
  assert (exists s0 entry,
             dispatch fuel op j data (at_switch s1 data seq) = hello fuel j s0
             /\ resumable s0 = false
             /\ s0 = set_last_seq (last_seq s0) (set_sessionid (sessionid s0)
                       (set_trace (trace s ++ entry)%list (with_codec c s)))
             /\ written entry = []) as (s0 & entry & -> & R & E0 & W0).
  { destruct Hop' as [-> | [-> R]].
    - exists (invalid_session (at_switch s1 data seq)). eexists.
      split; [reflexivity|]. split; [reflexivity|].
      subst s1. destruct seq; session.
      all: split; [rewrite <- app_assoc; reflexivity|].
      all: rewrite written_app; destruct (dispatch_log (creator s)); reflexivity.
    - exists (at_switch s1 data seq). eexists.
      split; [reflexivity|]. split; [exact R|].
      subst s1. destruct seq; session.
      all: split; [reflexivity|].
      all: destruct (dispatch_log (creator s)); reflexivity. }
  rewrite (hello_identifies _ _ _ _ Hi R); [| |assumption].
  2:{ rewrite E0. unfold with_codec. fields. assumption. }
  assert (F : clock s0 = clock s /\ creator s0 = creator s
              /\ trace s0 = (trace s ++ entry)%list
              /\ reconnects s0 = reconnects s /\ token s0 = token s
              /\ shard_id s0 = shard_id s /\ max_shards s0 = max_shards s
              /\ intents s0 = intents s).
  { rewrite E0. unfold with_codec. fields. repeat split; reflexivity. }
  destruct F as (Fclk & Fcre & Ftr & Frec & Ftok & Fsh & Fmax & Fint).
  clear E0.
  eexists. exists (entry ++ gate_wait s
                     ++ (if dispatch_log (creator s)
                         then [(Z.max (clock s) (last_identify (creator s) + 5),
                                EvLog ll_debug "Connecting new session...")]
                         else []))%list.
  split; [reflexivity|].
  rewrite identified_eq. cbv zeta.
  unfold gate_wait, log_entry, identify_obj, identify_d.
  destruct interval; unfold capture; fields;
    rewrite ?Fclk, ?Fcre, ?Ftr, ?Frec, ?Ftok, ?Fsh, ?Fmax, ?Fint.
  all: split; [rewrite <- !app_assoc; reflexivity|].
  all: split;
    [rewrite !written_app, W0;
     destruct (clock s <? last_identify (creator s) + 5);
     destruct (dispatch_log (creator s)); reflexivity|].
  all: split;
    [intros Hlt; apply in_or_app; right; apply in_or_app; left;
     destruct (Z.ltb_spec (clock s) (last_identify (creator s) + 5)); [|lia];
     apply in_or_app; right; left; reflexivity|].
  all: repeat split; try reflexivity; lia.
Qed.

(** *** Two shards of one cluster *)

Ltac shared :=
  cbn [shared_after first_after second_after second_writing
       the_cluster now calls] in *.

Lemma write_times_app (t u : list (Z * event)) :
  write_times (t ++ u) = (write_times t ++ write_times u)%list.
Proof.
  induction t as [|[at_time e] t IH]; [reflexivity|].
  destruct e; simpl; rewrite IH; reflexivity.
Qed.

Lemma write_times_log_entry severity msg s :
  write_times (log_entry severity msg s) = [].
Proof. unfold log_entry. destruct (dispatch_log (creator s)); reflexivity. Qed.

Lemma write_times_gate_wait s : write_times (gate_wait s) = [].
Proof.
  unfold gate_wait. destruct (_ <? _); [|reflexivity].
  cbv zeta. rewrite write_times_app, write_times_log_entry. reflexivity.
Qed.

(** The full connect is the throttle, the write and the stores, in this
    order. *)
Lemma full_connect_in_steps fuel j s interval :
  frame_heartbeat_interval j = inr interval ->
  resumable s = false ->
  hello fuel j s
  = match identify_gate fuel (capture interval set_heartbeat_interval s) with
    | None => OutOfFuel
    | Some passed => Returned true (identify_finish (identify_write passed))
    end.
Proof.
  intros Hi Hr. unfold hello. rewrite Hi, resumable_capture, Hr. reflexivity.
Qed.

(** What each step of a shard does to the clock, the cluster, the trace
    and the shard's own counters. *)
Lemma resume_on_fields w s :
  clock (resume_on w s) = now w
  /\ creator (resume_on w s) = the_cluster w
  /\ trace (resume_on w s) = calls w
  /\ reconnects (resume_on w s) = reconnects s
  /\ identify_obj (resume_on w s) = identify_obj s.
Proof.
  unfold resume_on, identify_obj, identify_d. fields. repeat split; reflexivity.
Qed.

Lemma resume_on_shared_fields s b :
  clock (resume_on (shared_of s) b) = clock s
  /\ creator (resume_on (shared_of s) b) = creator s
  /\ trace (resume_on (shared_of s) b) = trace s
  /\ reconnects (resume_on (shared_of s) b) = reconnects b
  /\ identify_obj (resume_on (shared_of s) b) = identify_obj b.
Proof. exact (resume_on_fields (shared_of s) b). Qed.

Lemma gate_passed_fields s :
  clock (gate_passed s) = Z.max (clock s) (last_identify (creator s) + 5)
  /\ creator (gate_passed s) = creator s
  /\ written (trace (gate_passed s)) = written (trace s)
  /\ write_times (trace (gate_passed s)) = write_times (trace s)
  /\ reconnects (gate_passed s) = reconnects s
  /\ identify_obj (gate_passed s) = identify_obj s.
Proof.
  unfold gate_passed, identify_obj, identify_d. fields.
  rewrite written_app, write_times_app, written_gate_wait, write_times_gate_wait,
    !app_nil_r.
  repeat split; reflexivity.
Qed.

Lemma identify_write_fields s :
  clock (identify_write s) = clock s
  /\ creator (identify_write s) = creator s
  /\ written (trace (identify_write s))
     = (written (trace s) ++ [dump (identify_obj s)])%list
  /\ write_times (trace (identify_write s)) = (write_times (trace s) ++ [clock s])%list
  /\ reconnects (identify_write s) = reconnects s.
Proof.
  unfold identify_write, write, emit. rewrite log_eq.
  unfold identify_obj, identify_d. fields.
  rewrite !written_app, !write_times_app, written_log_entry, write_times_log_entry.
  cbn [written write_times app]. rewrite !app_nil_r. repeat split; reflexivity.
Qed.

Lemma identify_finish_fields s :
  clock (identify_finish s) = clock s
  /\ last_identify (creator (identify_finish s)) = clock s
  /\ trace (identify_finish s) = trace s
  /\ reconnects (identify_finish s) = uint32 (reconnects s + 1).
Proof.
  unfold identify_finish, identify_store. fields. repeat split; reflexivity.
Qed.

(** C6. The throttle does not hold across the shards of a cluster. Each
    shard tests [last_identify] (line 225), writes its IDENTIFY (line 253)
    and only then stores the new [last_identify] (line 254), with no lock
    around the three. When a second shard of the cluster comes to the test
    after the first has passed it and before the first has stored, both
    pass on the same value and both write: the two IDENTIFY messages go out
    in the same second, and the second one is written at the very second
    that [last_identify] then holds, not five seconds after it. *)
Theorem identify_race_same_second :
  forall fuel w a b,
    last_identify (the_cluster w) + 5 - now w < 2 ^ 32 ->
    (1 <= fuel)%nat ->
    let opened := Z.max (now w) (last_identify (the_cluster w) + 5) in
    exists r,
      identify_race fuel w a b = Some r
      /\ written (calls (shared_after r))
         = (written (calls w)
              ++ [dump (identify_obj a); dump (identify_obj b)])%list
      /\ write_times (calls (shared_after r))
         = (write_times (calls w) ++ [opened; opened])%list
      /\ last_identify (creator (second_writing r)) = opened
      /\ clock (second_writing r) = opened
      /\ clock (second_writing r) < last_identify (creator (second_writing r)) + 5
      /\ written (trace (identify_write (second_writing r)))
         = (written (trace (second_writing r)) ++ [dump (identify_obj b)])%list
      /\ last_identify (the_cluster (shared_after r)) = opened
      /\ reconnects (first_after r) = uint32 (reconnects a + 1)
      /\ reconnects (second_after r) = uint32 (reconnects b + 1).
Proof.
  intros fuel w a b Hfit Hfuel opened. unfold identify_race.
  destruct (resume_on_fields w a) as (C0 & K0 & T0 & R0 & I0).
  rewrite (identify_gate_terminates fuel (resume_on w a))
    by (rewrite ?C0, ?K0; assumption).
  destruct (gate_passed_fields (resume_on w a)) as (C1 & K1 & W1 & M1 & R1 & I1).
  rewrite C0, K0 in C1. fold opened in C1.
  rewrite K0 in K1. rewrite T0 in W1, M1. rewrite R0 in R1. rewrite I0 in I1.
  clear C0 K0 T0 R0 I0.
  set (a1 := gate_passed (resume_on w a)) in *. clearbody a1.
  destruct (resume_on_shared_fields a1 b) as (C2 & K2 & T2 & R2 & I2).
  rewrite (identify_gate_open fuel (resume_on (shared_of a1) b))
    by (rewrite C2, K2, K1, C1; unfold opened; lia).
  set (b1 := resume_on (shared_of a1) b) in *. clearbody b1.
  cbv zeta. eexists. split; [reflexivity|]. shared.
  destruct (resume_on_shared_fields b1 a1) as (C3 & K3 & T3 & R3 & I3).
  set (a2 := resume_on (shared_of b1) a1) in *. clearbody a2.
  destruct (identify_write_fields a2) as (C4 & K4 & W4 & M4 & R4).
  destruct (identify_finish_fields (identify_write a2)) as (C5 & L5 & T5 & R5).
  set (a3 := identify_finish (identify_write a2)) in *. clearbody a3.
  destruct (resume_on_shared_fields a3 b1) as (C6 & K6 & T6 & R6 & I6).
  set (bw := resume_on (shared_of a3) b1) in *. clearbody bw.
  destruct (identify_write_fields bw) as (C7 & K7 & W7 & M7 & R7).
  destruct (identify_finish_fields (identify_write bw)) as (C8 & L8 & T8 & R8).
  set (b3 := identify_finish (identify_write bw)) in *. clearbody b3.
  unfold shared_of. shared.
  assert (Ea : clock a2 = opened) by congruence.
  assert (Eb : clock bw = opened) by congruence.
  assert (Lb : last_identify (creator bw) = opened) by congruence.
  assert (Wa : written (trace a3)
               = (written (calls w) ++ [dump (identify_obj a)])%list).
  { rewrite T5, W4, T3, T2, W1, I3, I1. reflexivity. }
  assert (Ma : write_times (trace a3) = (write_times (calls w) ++ [opened])%list).
  { rewrite T5, M4, T3, T2, M1, Ea. reflexivity. }
  split; [rewrite T8, W7, T6, Wa, I6, I2, <- app_assoc; reflexivity|].
  split; [rewrite T8, M7, T6, Ma, Eb, <- app_assoc; reflexivity|].
  split; [exact Lb|]. split; [exact Eb|]. split; [lia|].
  split; [rewrite W7, I6, I2; reflexivity|].
  split; [congruence|].
  split; [rewrite R5, R4, R3, R1; reflexivity|].
  rewrite R8, R7, R6, R2. reflexivity.
Qed.

(** *** The one-second tick *)

Lemma drain_rounds_eq n : forall s,
  drain_rounds n s
  = set_trace
      (trace s ++ map (fun m => (clock s, EvWrite m)) (firstn n (message_queue s)))%list
      (set_message_queue (skipn n (message_queue s)) s).
Proof.
  induction n as [|n IH]; intros s.
  - cbn [drain_rounds firstn skipn map]. rewrite app_nil_r. destruct s; reflexivity.
  - cbn [drain_rounds]. rewrite IH. unfold drain_one.
    destruct (message_queue s) as [|m q] eqn:Q.
    + rewrite Q. destruct n; cbn [firstn skipn map]; reflexivity.
    + unfold write, emit. fields. cbn [firstn skipn map].
      rewrite <- app_assoc. reflexivity.
Qed.

Lemma written_writes (at_time : Z) (l : list string) :
  written (map (fun m => (at_time, EvWrite m)) l) = l.
Proof. induction l as [|m l IH]; simpl; congruence. Qed.

Lemma closes_writes (at_time : Z) (l : list string) :
  closes (map (fun m => (at_time, EvWrite m)) l) = [].
Proof. induction l as [|m l IH]; simpl; congruence. Qed.

Lemma OneSecondTimer_alive s :
  IsConnected s = true -> ack_missed s = false ->
  OneSecondTimer s = heartbeat (drain s).
Proof. intros Hc Ha. unfold OneSecondTimer. rewrite Hc, Ha. reflexivity. Qed.

(** The heartbeat step changes the trace by the collector's call at
    most. *)
Lemma heartbeat_trace s :
  trace (heartbeat s) = trace s
  \/ trace (heartbeat s) = (trace s ++ [(clock s, EvGarbageCollection)])%list.
Proof.
  unfold heartbeat. destruct (_ && _); [|left; reflexivity].
  destruct (heartbeat_due s); [right; reflexivity|left; reflexivity].
Qed.

Lemma written_heartbeat s : written (trace (heartbeat s)) = written (trace s).
Proof.
  destruct (heartbeat_trace s) as [-> | ->]; [reflexivity|].
  rewrite written_app. cbn [written]. apply app_nil_r.
Qed.

Lemma closes_heartbeat s : closes (trace (heartbeat s)) = closes (trace s).
Proof.
  destruct (heartbeat_trace s) as [-> | ->]; [reflexivity|].
  rewrite closes_app. cbn [closes]. apply app_nil_r.
Qed.

(** C2. The liveness test compares the seconds since the last ACK with
    [heartbeat_interval * 2], the interval being in milliseconds: with an
    interval of 40000 ms the tick forces the reconnection only after more
    than 80000 seconds without an ACK. At 85 seconds, the case of the
    scenario, the tick goes on to drain and heartbeat: the queue is not
    cleared and the transport is not closed. *)
Theorem missed_acks_after_85s_not_detected :
  forall s,
    IsConnected s = true ->
    heartbeat_interval s = 40000 ->
    (ack_missed s = true <-> clock s - last_heartbeat_ack s > 80000)
    /\ (last_heartbeat_ack s = clock s - 85 ->
        ack_missed s = false
        /\ OneSecondTimer s = heartbeat (drain s)
        /\ closes (trace (OneSecondTimer s)) = closes (trace s)).
Proof.
  intros s Hc Hi.
  assert (A : ack_missed s = (clock s - last_heartbeat_ack s >? 80000)).
  { unfold ack_missed. rewrite Hi. reflexivity. }
  split.
  - rewrite A. rewrite Z.gtb_ltb, Z.ltb_lt. lia.
  - intros Hack.
    assert (M : ack_missed s = false).
    { rewrite A, Hack. replace (clock s - (clock s - 85)) with 85 by lia. reflexivity. }
    split; [exact M|]. split; [apply OneSecondTimer_alive; assumption|].
    rewrite OneSecondTimer_alive, closes_heartbeat by assumption.
    unfold drain. rewrite drain_rounds_eq. fields.
    rewrite closes_app, closes_writes. apply app_nil_r.
Qed.

(** *** The drain with the clock read at every test *)

Lemma rem2_cases t : Z.rem t 2 = -1 \/ Z.rem t 2 = 0 \/ Z.rem t 2 = 1.
Proof. pose proof (Z.rem_bound_abs t 2 ltac:(lia)). lia. Qed.

Lemma rem2_odd t : 0 <= t -> Z.rem t 2 = if Z.odd t then 1 else 0.
Proof.
  intros H. rewrite Z.rem_mod_nonneg by lia. rewrite Zmod_odd. reflexivity.
Qed.

Lemma set_clock_same s : set_clock (clock s) s = s.
Proof. destruct s; reflexivity. Qed.

(** One round writes the front of the queue, if there is one. *)
Lemma drain_one_effect s :
  written (trace (drain_one s)) = (written (trace s) ++ firstn 1 (message_queue s))%list
  /\ message_queue (drain_one s) = skipn 1 (message_queue s)
  /\ clock (drain_one s) = clock s.
Proof.
  unfold drain_one. destruct (message_queue s) as [|m q] eqn:Q.
  - rewrite Q, app_nil_r. repeat split; reflexivity.
  - unfold write, emit. fields. rewrite written_app. repeat split; reflexivity.
Qed.

Lemma firstn_step (A : Type) (n : nat) (l : list A) :
  (firstn 1 l ++ firstn n (skipn 1 l))%list = firstn (S n) l.
Proof. destruct l as [|a l]; [destruct n; reflexivity|reflexivity]. Qed.


(** With two reads of non-negative seconds the number of rounds is known:
    the first test passes, the second passes when it reads an odd second,
    and no third test passes. *)
Lemma drain_loop_parity t0 t1 later s :
  0 <= t0 -> 0 <= t1 ->
  written (trace (drain_loop 0 (t0 :: t1 :: later) s))
  = (written (trace s) ++ firstn (if Z.odd t1 then 2 else 1) (message_queue s))%list.
Proof.
  intros H0 H1. cbn [drain_loop]. cbv zeta. fields.
  rewrite (rem2_odd t0 H0), (rem2_odd t1 H1).
  assert (T0 : (0 <? (if Z.odd t0 then 1 else 0) + 1) = true)
    by (destruct (Z.odd t0); reflexivity).
  rewrite T0. change (0 + 1) with 1.
  destruct (drain_one_effect (set_clock t0 s)) as (W1 & Q1 & _). fields.
  destruct (Z.odd t1).
  - change (1 <? 1 + 1) with true. cbv iota. change (1 + 1) with 2.
    destruct (drain_one_effect (set_clock t1 (drain_one (set_clock t0 s))))
      as (W2 & Q2 & _). fields.
    assert (E : written (trace (drain_one (set_clock t1 (drain_one (set_clock t0 s)))))
                = (written (trace s) ++ firstn 2 (message_queue s))%list).
    { rewrite W2, W1, Q1, <- app_assoc, firstn_step. reflexivity. }
    destruct later as [|t2 later]; [exact E|].
    cbn [drain_loop]. cbv zeta. fields.
    destruct (Z.ltb_spec 2 (Z.rem t2 2 + 1)) as [Hlt|_].
    + pose proof (rem2_cases t2). lia.
    + fields. exact E.
  - change (1 <? 0 + 1) with false. cbv iota. fields. exact W1.
Qed.

(** The heartbeat step writes nothing, at whatever seconds it reads the
    clock. *)
Lemma written_heartbeat_reads t_due t_set s :
  written (trace (heartbeat_reads t_due t_set s)) = written (trace s).
Proof.
  unfold heartbeat_reads. destruct (_ && _); [|reflexivity]. cbv zeta.
  destruct (heartbeat_due (set_clock t_due s)); [|reflexivity].
  unfold garbage_collection, emit, QueueMessage.
  destruct (message_queue (set_clock t_due s)); fields;
    rewrite written_app; cbn [written]; apply app_nil_r.
Qed.

(** A tick that begins and ends within one second is [OneSecondTimer]. *)
Lemma drain_loop_same_second n : forall x s,
  drain_loop x (repeat (clock s) n) s
  = drain_rounds (Nat.min n (Z.to_nat (Z.rem (clock s) 2 + 1 - x))) s.
Proof.
  induction n as [|n IH]; intros x s; [reflexivity|].
  cbn [repeat drain_loop]. cbv zeta. fields. rewrite set_clock_same.
  destruct (Z.ltb_spec x (Z.rem (clock s) 2 + 1)) as [Hlt|Hge].
  - destruct (drain_one_effect s) as (_ & _ & C).
    replace (Z.to_nat (Z.rem (clock s) 2 + 1 - x))
      with (S (Z.to_nat (Z.rem (clock s) 2 + 1 - (x + 1)))) by lia.
    cbn [Nat.min drain_rounds]. rewrite <- C at 1. rewrite IH, C. reflexivity.
  - replace (Z.to_nat (Z.rem (clock s) 2 + 1 - x)) with 0%nat by lia.
    rewrite Nat.min_0_r. reflexivity.
Qed.

Lemma drain_loop_within_a_second s :
  drain_loop 0 [clock s; clock s; clock s] s = drain s.
Proof.
  change [clock s; clock s; clock s] with (repeat (clock s) 3).
  rewrite drain_loop_same_second. unfold drain, drain_bound.
  f_equal. pose proof (rem2_cases (clock s)). lia.
Qed.

Lemma OneSecondTimer_within_a_second s :
  OneSecondTimer_reads (clock s) [clock s; clock s; clock s] (clock s) (clock s) s
  = OneSecondTimer s.
Proof.
  unfold OneSecondTimer_reads, OneSecondTimer. cbv zeta.
  rewrite set_clock_same, drain_loop_within_a_second.
  destruct (IsConnected s); [|reflexivity].
  destruct (ack_missed s); [reflexivity|].
  unfold heartbeat_reads, heartbeat. cbv zeta.
  assert (C : clock (drain s) = clock s).
  { unfold drain. rewrite drain_rounds_eq. reflexivity. }
  rewrite <- C, !set_clock_same. reflexivity.
Qed.

(** C3. On a tick of a connected, ready client whose ACKs are not
    overdue, the drain writes the front of the queue in queue order, as far
    as the queue goes: two messages when the loop test reads an odd second,
    and one when it reads an even second. The comment on the loop (line
    384) and the claim have it the other way round, one on odd seconds and
    two on even seconds. The roof [(now mod 2) + 1] is read anew at each
    test of the loop; the second read is the one that decides. *)
Theorem drain_parity_inverted :
  forall s,
    IsConnected s = true ->
    (forall t_live t0 t1 later t_due t_set,
        ack_missed (set_clock t_live s) = false ->
        0 <= t0 -> 0 <= t1 ->
        written (trace (OneSecondTimer_reads t_live (t0 :: t1 :: later) t_due t_set s))
        = (written (trace s)
             ++ firstn (if Z.odd t1 then 2 else 1) (message_queue s))%list)
    /\ (ack_missed s = false ->
        0 <= clock s ->
        written (trace (OneSecondTimer s))
        = (written (trace s)
             ++ firstn (if Z.odd (clock s) then 2 else 1) (message_queue s))%list).
Proof.
  intros s Hc.
  assert (R : forall t_live t0 t1 later t_due t_set,
             ack_missed (set_clock t_live s) = false ->
             0 <= t0 -> 0 <= t1 ->
             written (trace (OneSecondTimer_reads t_live (t0 :: t1 :: later)
                               t_due t_set s))
             = (written (trace s)
                  ++ firstn (if Z.odd t1 then 2 else 1) (message_queue s))%list).
  { intros t_live t0 t1 later t_due t_set Ha H0 H1.
    unfold OneSecondTimer_reads. rewrite Hc. cbv zeta. rewrite Ha.
    rewrite written_heartbeat_reads, drain_loop_parity by assumption.
    reflexivity. }
  split; [exact R|].
  intros Ha Hnow. rewrite <- OneSecondTimer_within_a_second.
  apply R; [rewrite set_clock_same; exact Ha|exact Hnow|exact Hnow].
Qed.

(** C8. On a tick of a connected, ready client whose ACKs are not
    overdue, after the drain: if [heartbeat_interval] and [last_seq] are
    both non-zero and [now > last_heartbeat + 0.75 * heartbeat_interval /
    1000] (in [double], as the code computes it), the message
    [{op: 1, d: last_seq}] is put at the front of the queue,
    [last_heartbeat] becomes [now] and the garbage collector is called;
    otherwise the tick ends in the state the drain left. *)
Theorem heartbeat_emission :
  forall s,
    IsConnected s = true ->
    ack_missed s = false ->
    let drained := drain s in
    let after := OneSecondTimer s in
    if negb (heartbeat_interval s =? 0) && negb (last_seq s =? 0) && heartbeat_due s
    then
      message_queue after
      = dump (JObj [ ("op", JNum 1); ("d", JNum (last_seq s)) ]) :: message_queue drained
      /\ last_heartbeat after = clock s
      /\ trace after = (trace drained ++ [(clock s, EvGarbageCollection)])%list
      /\ written (trace after) = written (trace drained)
    else after = drained.
Proof.
  intros s Hc Ha drained after. subst drained after.
  rewrite OneSecondTimer_alive by assumption.
  unfold drain. rewrite drain_rounds_eq.
  unfold heartbeat, heartbeat_due, heartbeat_obj, QueueMessage, garbage_collection, emit.
  fields.
  destruct (negb (heartbeat_interval s =? 0) && negb (last_seq s =? 0));
    [|reflexivity].
  cbn [andb].
  destruct (PrimFloat.ltb _ _); [|reflexivity].
  fields. repeat split; try reflexivity.
  rewrite written_app. cbn [written]. apply app_nil_r.
Qed.

(** ** Further properties *)

(** Field reads through every setter, the later ones included. *)
Ltac fields2 :=
  cbn [shard_id max_shards token intents compressed last_heartbeat
       heartbeat_interval reconnects resumes last_seq sessionid
       decompressed_total decompressed d_stream ready connect_time
       last_heartbeat_ack message_queue ws_state creator clock trace
       set_last_heartbeat set_heartbeat_interval set_reconnects set_resumes
       set_last_seq set_sessionid set_decompressed_total set_decompressed
       set_d_stream set_connect_time set_last_heartbeat_ack
       set_message_queue set_creator set_clock set_trace set_ready
       last_identify dispatch_log next_in avail_in avail_out internal_state
       set_input set_avail_out] in *.

(** *** The opcodes outside the handshake *)

(** X1. A HEARTBEAT_ACK frame (op 11) sets [last_heartbeat_ack] to the
    current time and is consumed. Beyond that it only takes [last_seq] from
    the frame and logs the text: nothing is written, nothing is closed, the
    queue and the session id stay. *)
Theorem heartbeat_ack_recorded :
  forall fuel buffer s data s1 j v seq,
    decode_frame fuel buffer s = inr (data, s1) ->
    parse data = inr j ->
    frame_seq j = inr seq ->
    json_find "op" j = Some v ->
    get_uint32 v = inr 11 ->
    exists s',
      HandleFrame fuel buffer s = Returned true s'
      /\ s' = set_last_heartbeat_ack (clock s) (at_switch s1 data seq)
      /\ last_heartbeat_ack s' = clock s'
      /\ last_seq s' = match seq with Some n => n | None => last_seq s end
      /\ sessionid s' = sessionid s
      /\ message_queue s' = message_queue s
      /\ written (trace s') = written (trace s)
      /\ closes (trace s') = closes (trace s).
Proof.
  intros fuel buffer s data s1 j v seq Hd Hp Hs Hop Hv.
  destruct (HandleFrame_dispatch _ _ _ _ _ _ _ _ _ Hd Hp Hs Hop Hv) as [-> [c ->]].
  clear Hd. eexists. split; [reflexivity|].
  destruct seq; session; rewrite !written_app, !closes_app;
    (destruct (dispatch_log (creator s)); cbn [written closes];
     rewrite ?app_nil_r; repeat split; reflexivity).
Qed.

(** X2. A RECONNECT frame (op 7) empties the outbound queue and closes the
    socket, and is consumed. It writes nothing and keeps [sessionid];
    [last_seq] is the frame's [s] where the frame has one, as for every
    frame, and is kept otherwise. So the session is resumable afterwards
    exactly when that number is not zero and [sessionid] is not empty: a
    RECONNECT without [s] leaves the session as resumable as it was, one
    with [s] zero leaves it not resumable. *)
Theorem reconnect_requested :
  forall fuel buffer s data s1 j v seq,
    decode_frame fuel buffer s = inr (data, s1) ->
    parse data = inr j ->
    frame_seq j = inr seq ->
    json_find "op" j = Some v ->
    get_uint32 v = inr 7 ->
    exists s',
      HandleFrame fuel buffer s = Returned true s'
      /\ message_queue s' = []
      /\ closes (trace s') = (closes (trace s) ++ [(clock s, EvCloseSocket)])%list
      /\ written (trace s') = written (trace s)
      /\ sessionid s' = sessionid s
      /\ last_seq s' = match seq with Some n => n | None => last_seq s end
      /\ resumable s'
         = negb (match seq with Some n => n | None => last_seq s end =? 0)
           && negb (empty (sessionid s))
      /\ (seq = None -> last_seq s' = last_seq s /\ resumable s' = resumable s)
      /\ (seq = Some 0 -> resumable s' = false).
Proof.
  intros fuel buffer s data s1 j v seq Hd Hp Hs Hop Hv.
  destruct (HandleFrame_dispatch _ _ _ _ _ _ _ _ _ Hd Hp Hs Hop Hv) as [-> [c ->]].
  clear Hd. eexists. split; [reflexivity|].
  unfold resumable, close_socket, emit.
  destruct seq as [n|]; session; rewrite !written_app, !closes_app;
    (destruct (dispatch_log (creator s)); cbn [written closes app];
     rewrite ?app_nil_r; repeat (split; [reflexivity|]);
     (split;
      [ intros E; try discriminate E; split; reflexivity
      | intros E; try discriminate E; apply Some_inj in E; subst n; reflexivity ])).
Qed.

(** X3. A frame without [op], or with an opcode other than 0, 7, 9, 10 and
    11, is consumed and ignored: apart from the log of the text and the
    update of [last_seq] from [s] the client is as before. In particular a
    heartbeat request of the server (op 1) queues no heartbeat. *)
Theorem other_opcodes_ignored :
  forall fuel buffer s data s1 j seq,
    decode_frame fuel buffer s = inr (data, s1) ->
    parse data = inr j ->
    frame_seq j = inr seq ->
    (json_find "op" j = None
     \/ exists v op, json_find "op" j = Some v /\ get_uint32 v = inr op
                     /\ ~ In op [0; 7; 9; 10; 11]) ->
    exists s',
      HandleFrame fuel buffer s = Returned true s'
      /\ s' = at_switch s1 data seq
      /\ last_seq s' = match seq with Some n => n | None => last_seq s end
      /\ message_queue s' = message_queue s
      /\ last_heartbeat_ack s' = last_heartbeat_ack s
      /\ sessionid s' = sessionid s
      /\ written (trace s') = written (trace s)
      /\ closes (trace s') = closes (trace s).
Proof.
  intros fuel buffer s data s1 j seq Hd Hp Hs Hop.
  assert (E : HandleFrame fuel buffer s = Returned true (at_switch s1 data seq)).
  { destruct Hop as [Hop | (v & op & Hop & Hv & Hn)].
    - unfold HandleFrame. rewrite Hd. unfold handle_text. rewrite Hp, Hs, Hop.
      reflexivity.
    - destruct (HandleFrame_dispatch _ _ _ _ _ _ _ _ _ Hd Hp Hs Hop Hv) as [-> _].
      unfold dispatch.
      destruct (Z.eqb_spec op 9); [subst; exfalso; apply Hn; simpl; tauto|].
      destruct (Z.eqb_spec op 10); [subst; exfalso; apply Hn; simpl; tauto|].
      destruct (Z.eqb_spec op 0); [subst; exfalso; apply Hn; simpl; tauto|].
      destruct (Z.eqb_spec op 7); [subst; exfalso; apply Hn; simpl; tauto|].
      destruct (Z.eqb_spec op 11); [subst; exfalso; apply Hn; simpl; tauto|].
      reflexivity. }
  apply decode_frame_codec in Hd.
  assert (exists c, s1 = with_codec c s) as [c ->] by (exists s1; exact Hd).
  eexists. split; [exact E|]. split; [reflexivity|].
  destruct seq; session; rewrite !written_app, !closes_app;
    (destruct (dispatch_log (creator s)); cbn [written closes app];
     rewrite ?app_nil_r; repeat split; reflexivity).
Qed.


(** *** Frames of the wrong type *)

(** X4. A frame whose [s] is present, not null and not a number makes
    [HandleFrame] leave with the library's [type_error] 302, which the
    function does not catch. This happens before the opcode is looked at:
    the text has been logged and nothing else has changed. *)
Theorem bad_sequence_raises :
  forall fuel buffer s data s1 j v,
    decode_frame fuel buffer s = inr (data, s1) ->
    parse data = inr j ->
    present "s" j = Some v ->
    (forall n, v <> JNum n) ->
    exists s',
      HandleFrame fuel buffer s = Thrown (type_error 302) s'
      /\ s' = log ll_trace ("R: " ++ data) s1
      /\ last_seq s' = last_seq s
      /\ sessionid s' = sessionid s
      /\ last_heartbeat_ack s' = last_heartbeat_ack s
      /\ written (trace s') = written (trace s)
      /\ closes (trace s') = closes (trace s).
Proof.
  intros fuel buffer s data s1 j v Hd Hp Hs Hv.
  assert (Hf : frame_seq j = inl (type_error 302)).
  { unfold frame_seq. rewrite Hs. destruct v; try reflexivity.
    exfalso. apply (Hv z). reflexivity. }
  eexists. split.
  { unfold HandleFrame. rewrite Hd. unfold handle_text. rewrite Hp, Hf. reflexivity. }
  apply decode_frame_codec in Hd.
  assert (exists c, s1 = with_codec c s) as [c ->] by (exists s1; exact Hd).
  split; [reflexivity|].
  session; rewrite !written_app, !closes_app;
    (destruct (dispatch_log (creator s)); cbn [written closes app];
     rewrite ?app_nil_r; repeat split; reflexivity).
Qed.

(** X5. A HELLO or INVALID_SESSION frame whose [d.heartbeat_interval] is
    present, not null and neither a number nor a boolean raises
    [type_error] 302 before anything is sent: no RESUME, no IDENTIFY, no
    change of [last_heartbeat_ack]. On INVALID_SESSION the session has been
    cleared by then. *)
Theorem bad_heartbeat_interval_raises :
  forall fuel buffer s data s1 j v op seq d x,
    decode_frame fuel buffer s = inr (data, s1) ->
    parse data = inr j ->
    frame_seq j = inr seq ->
    json_find "op" j = Some v ->
    get_uint32 v = inr op ->
    op = 9 \/ op = 10 ->
    json_find "d" j = Some d ->
    present "heartbeat_interval" d = Some x ->
    (forall n, x <> JNum n) ->
    (forall b, x <> JBool b) ->
    exists s',
      HandleFrame fuel buffer s = Thrown (type_error 302) s'
      /\ written (trace s') = written (trace s)
      /\ closes (trace s') = closes (trace s)
      /\ last_heartbeat_ack s' = last_heartbeat_ack s
      /\ heartbeat_interval s' = heartbeat_interval s
      /\ (op = 9 -> sessionid s' = "" /\ last_seq s' = 0)
      /\ (op = 10 -> s' = at_switch s1 data seq).
Proof.
  intros fuel buffer s data s1 j v op seq d x Hd Hp Hs Hop Hv Hop' Hdj Hx Hn Hb.
  assert (Hf : frame_heartbeat_interval j = inl (type_error 302)).
  { unfold frame_heartbeat_interval. rewrite Hdj, Hx. destruct x; try reflexivity.
    - exfalso. apply (Hb b). reflexivity.
    - exfalso. apply (Hn z). reflexivity. }
  destruct (HandleFrame_dispatch _ _ _ _ _ _ _ _ _ Hd Hp Hs Hop Hv) as [-> [c ->]].
  clear Hd.
  destruct Hop' as [-> | ->].
  - exists (invalid_session (at_switch (with_codec c s) data seq)). split.
    { unfold dispatch. cbn [Z.eqb Pos.eqb]. unfold hello. rewrite Hf. reflexivity. }
    destruct seq; session; rewrite !written_app, !closes_app;
      (destruct (dispatch_log (creator s)); cbn [written closes app];
       rewrite ?app_nil_r; repeat split; try reflexivity; discriminate).
  - exists (at_switch (with_codec c s) data seq). split.
    { unfold dispatch. cbn [Z.eqb Pos.eqb]. unfold hello. rewrite Hf. reflexivity. }
    destruct seq; session; rewrite !written_app, !closes_app;
      (destruct (dispatch_log (creator s)); cbn [written closes app];
       rewrite ?app_nil_r; repeat split; try reflexivity; discriminate).
Qed.

(** X6. A DISPATCH frame (op 0) is handed to [HandleEvent] with the event
    name [t], or the empty name when [t] is missing or null, after [last_seq]
    has been taken from the frame; whatever [HandleEvent] leaves is the
    result. When [t] is of another type, [type_error] 302 is raised and
    [HandleEvent] is not called. *)
Theorem dispatch_forwarded :
  forall fuel buffer s data s1 j v seq,
    decode_frame fuel buffer s = inr (data, s1) ->
    parse data = inr j ->
    frame_seq j = inr seq ->
    json_find "op" j = Some v ->
    get_uint32 v = inr 0 ->
    let entered := at_switch s1 data seq in
    last_seq entered = match seq with Some n => n | None => last_seq s end
    /\ HandleFrame fuel buffer s
       = match present "t" j with
         | None => Returned true (HandleEvent "" j data entered)
         | Some (JStr event) => Returned true (HandleEvent event j data entered)
         | Some _ => Thrown (type_error 302) entered
         end.
Proof.
  intros fuel buffer s data s1 j v seq Hd Hp Hs Hop Hv entered. subst entered.
  destruct (HandleFrame_dispatch _ _ _ _ _ _ _ _ _ Hd Hp Hs Hop Hv) as [-> [c ->]].
  split.
  - destruct seq; session; reflexivity.
  - unfold dispatch. cbn [Z.eqb Pos.eqb].
    destruct (present "t" j) as [[| | | | |]|]; reflexivity.
Qed.

(** X7. A client without compression never asks for more bytes and never
    reads outside the buffer: whatever the buffer, [HandleFrame] reports the
    frame consumed or leaves with an exception, and the decompressor is not
    touched. *)
Theorem uncompressed_always_consumed :
  forall fuel buffer s,
    compressed s = false ->
    HandleFrame fuel buffer s <> OutOfBounds
    /\ (forall s', HandleFrame fuel buffer s <> Returned false s')
    /\ decode_frame fuel buffer s = inr (buffer, s).
Proof.
  intros fuel buffer s Hc.
  pose proof (handle_text_exit fuel buffer s) as X.
  rewrite <- (uncompressed_frame _ _ _ Hc) in X.
  split; [|split].
  - intros E. rewrite E in X. exact X.
  - intros s' E. rewrite E in X. exact X.
  - unfold decode_frame. rewrite Hc. reflexivity.
Qed.


(** *** The decompressor *)

Lemma size_append (a b : string) : size (a ++ b) = size a + size b.
Proof.
  unfold size. induction a as [|c a IH]; [reflexivity|].
  cbn [append String.length] in *. lia.
Qed.

Lemma length_substring_0 (n : nat) : forall buf : string,
  (n <= String.length buf)%nat -> String.length (substring 0 n buf) = n.
Proof.
  induction n as [|n IH]; intros [|c buf] H; cbn [substring String.length] in *;
    try reflexivity; try lia.
  rewrite IH by lia. reflexivity.
Qed.

Lemma inflate_round_counted total0 s :
  (forall zs,
      avail_out zs = DECOMP_BUFFER_SIZE ->
      0 <= DECOMP_BUFFER_SIZE - avail_out (stream (inflate zs Z_NO_FLUSH))
        <= size (decomp_buffer (inflate zs Z_NO_FLUSH))) ->
  counted total0 s ->
  forall s', inflate_round s = Again s' \/ inflate_round s = Done s' ->
             counted total0 s'.
Proof.
  intros Hz [Hr Hc] s'. unfold inflate_round.
  pose proof (Hz (set_avail_out DECOMP_BUFFER_SIZE (d_stream s)) eq_refl) as Hh.
  fold (inflate_call s) in Hh.
  destruct (_ || _); [intros [H|H]; discriminate|].
  destruct (_ =? Z_DATA_ERROR); [intros [H|H]; discriminate|].
  destruct (_ =? Z_MEM_ERROR); [intros [H|H]; discriminate|].
  assert (U : forall x, 0 <= uint64 x < 2 ^ 64)
    by (intros x; unfold uint64; apply Z.mod_pos_bound; lia).
  destruct (_ =? Z_OK); fields.
  - assert (K : counted total0
                  (set_decompressed_total
                     (uint64 (decompressed_total s
                              + (DECOMP_BUFFER_SIZE - avail_out (stream (inflate_call s)))))
                     (set_decompressed
                        (decompressed s
                           ++ substring 0
                                (Z.to_nat (DECOMP_BUFFER_SIZE
                                           - avail_out (stream (inflate_call s))))
                                (decomp_buffer (inflate_call s)))
                        (set_d_stream (stream (inflate_call s)) s)))).
    { unfold counted. fields. split; [apply U|].
      rewrite size_append. unfold size at 2.
      rewrite length_substring_0 by (unfold size in Hh; lia).
      rewrite Z2Nat.id by lia. rewrite Hc. unfold uint64.
      rewrite Zplus_mod_idemp_l. f_equal. lia. }
    destruct (_ =? 0); intros [H|H]; try discriminate;
      [apply Again_inj in H | apply Done_inj in H]; subst s'; exact K.
  - assert (K : counted total0 (set_d_stream (stream (inflate_call s)) s)).
    { unfold counted. fields. split; assumption. }
    destruct (_ =? 0); intros [H|H]; try discriminate;
      [apply Again_inj in H | apply Done_inj in H]; subst s'; exact K.
Qed.

(** X8. When zlib reports in [avail_out] no more bytes than the staging
    buffer holds, a frame that inflates without failure raises
    [decompressed_total], the value of [GetDeompressedBytesIn], by exactly
    the length of the text it decoded (modulo [2^64]). *)
Theorem decompressed_bytes_accounted :
  forall fuel buffer s s1,
    (forall zs,
        avail_out zs = DECOMP_BUFFER_SIZE ->
        0 <= DECOMP_BUFFER_SIZE - avail_out (stream (inflate zs Z_NO_FLUSH))
          <= size (decomp_buffer (inflate zs Z_NO_FLUSH))) ->
    0 <= GetDeompressedBytesIn s < 2 ^ 64 ->
    inflate_loop fuel (inflate_start buffer s) = inr s1 ->
    GetDeompressedBytesIn s1
    = uint64 (GetDeompressedBytesIn s + size (decompressed s1)).
Proof.
  intros fuel buffer s s1 Hz Hr.
  unfold GetDeompressedBytesIn in *.
  assert (K0 : counted (decompressed_total s) (inflate_start buffer s)).
  { unfold counted, inflate_start. fields. split; [exact Hr|].
    change (size "") with 0. rewrite Z.add_0_r. unfold uint64.
    symmetry. apply Z.mod_small. exact Hr. }
  revert K0. generalize (inflate_start buffer s) as s0.
  induction fuel as [|fuel IH]; intros s0 K0; cbn [inflate_loop]; [discriminate|].
  destruct (inflate_round s0) as [s2|s2|o] eqn:R.
  - apply IH. apply (inflate_round_counted _ _ Hz K0). left. exact R.
  - intros E. assert (s2 = s1) by congruence. subst s2.
    apply (inflate_round_counted _ _ Hz K0 s1). right. exact R.
  - discriminate.
Qed.

(** X9. The [switch] appends the output of a round for [Z_OK] only. When
    zlib ends the first round with any other result that is not one of the
    failures ([Z_STREAM_END], [Z_BUF_ERROR], ...) and has not filled the
    staging buffer, the bytes it produced are dropped: the frame is handled
    as the empty text and the byte counter stays. *)
Theorem unhandled_zlib_result_drops_output :
  forall fuel buffer s,
    compressed s = true ->
    frame_complete buffer = Some true ->
    let r := inflate_call (inflate_start buffer s) in
    ~ In (ret r) [Z_OK; Z_NEED_DICT; Z_STREAM_ERROR; Z_DATA_ERROR; Z_MEM_ERROR] ->
    avail_out (stream r) <> 0 ->
    let s1 := set_d_stream (stream r) (inflate_start buffer s) in
    HandleFrame (S fuel) buffer s = handle_text (S fuel) "" s1
    /\ GetDeompressedBytesIn s1 = GetDeompressedBytesIn s.
Proof.
  intros fuel buffer s Hc Hf r Hr Ha s1. split; [|reflexivity].
  assert (R : inflate_round (inflate_start buffer s) = Done s1).
  { unfold inflate_round. fold r. cbn [In] in Hr.
    destruct (Z.eqb_spec (ret r) Z_NEED_DICT) as [e|_]; [exfalso; apply Hr; rewrite e; tauto|].
    destruct (Z.eqb_spec (ret r) Z_STREAM_ERROR) as [e|_]; [exfalso; apply Hr; rewrite e; tauto|].
    destruct (Z.eqb_spec (ret r) Z_DATA_ERROR) as [e|_]; [exfalso; apply Hr; rewrite e; tauto|].
    destruct (Z.eqb_spec (ret r) Z_MEM_ERROR) as [e|_]; [exfalso; apply Hr; rewrite e; tauto|].
    destruct (Z.eqb_spec (ret r) Z_OK) as [e|_]; [exfalso; apply Hr; rewrite e; tauto|].
    cbn [orb]. fields.
    destruct (Z.eqb_spec (avail_out (stream r)) 0); [contradiction|].
    reflexivity. }
  unfold HandleFrame, decode_frame. rewrite Hc, Hf.
  cbn [inflate_loop]. rewrite R. reflexivity.
Qed.

(** *** The identify throttle, whatever the wait *)

(** X10. Whenever the throttle loop lets the shard through, after any
    number of rounds, at least five seconds have passed since
    [last_identify]. The loop only logs and sleeps: the clock has not gone
    back, nothing has been written or closed, and no field of the client or
    the cluster has changed but the clock and the trace. *)
Theorem identify_gate_safe :
  forall fuel s s',
    identify_gate fuel s = Some s' ->
    last_identify (creator s) + 5 <= clock s'
    /\ clock s <= clock s'
    /\ written (trace s') = written (trace s)
    /\ closes (trace s') = closes (trace s)
    /\ s' = set_clock (clock s') (set_trace (trace s') s).
Proof.
  induction fuel as [|fuel IH]; intros s s'; cbn [identify_gate];
    destruct (Z.ltb_spec (clock s) (last_identify (creator s) + 5)) as [Hlt|Hge];
    try discriminate;
    try (intros E; assert (s = s') by congruence; subst s';
         repeat split; try lia; destruct s; reflexivity).
  intros E. apply IH in E. revert E.
  unfold sleep_for, emit. rewrite log_eq. fields.
  intros (H1 & H2 & H3 & H4 & H5).
  assert (0 <= uint32 (last_identify (creator s) + 5 - clock s))
    by (unfold uint32; apply Z.mod_pos_bound; lia).
  split; [exact H1|]. split; [lia|].
  rewrite H3, H4, !written_app, !closes_app, written_log_entry, closes_log_entry.
  cbn [written closes app]. rewrite !app_nil_r.
  repeat split. rewrite H5 at 1. destruct s; reflexivity.
Qed.


(** *** More on the one-second tick *)

Lemma written_drain_rounds n s :
  written (trace (drain_rounds n s))
  = (written (trace s) ++ firstn n (message_queue s))%list.
Proof.
  rewrite drain_rounds_eq. fields. rewrite written_app, written_writes. reflexivity.
Qed.



(** X13. A heartbeat is queued after the drain of its tick, so it is not
    written in that tick; being at the front of the queue, it is the first
    message the next tick writes, whatever backlog the queue holds. *)
Theorem heartbeat_sent_first_next_tick :
  forall s t,
    IsConnected s = true ->
    ack_missed s = false ->
    negb (heartbeat_interval s =? 0) && negb (last_seq s =? 0) && heartbeat_due s
    = true ->
    0 <= t ->
    let queued := OneSecondTimer s in
    let next := set_clock t queued in
    ack_missed next = false ->
    written (trace queued) = written (trace (drain s))
    /\ exists rest,
        written (trace (OneSecondTimer next))
        = (written (trace queued) ++ dump (heartbeat_obj s) :: rest)%list.
Proof.
  intros s t Hc Ha Hd Ht queued next Hn. subst queued next.
  rewrite OneSecondTimer_alive in * by assumption.
  split; [apply written_heartbeat|].
  assert (Q : message_queue (heartbeat (drain s))
              = dump (heartbeat_obj s) :: message_queue (drain s)).
  { apply andb_true_iff in Hd as [Hd1 Hd2].
    revert Hd1 Hd2. unfold drain. rewrite drain_rounds_eq.
    unfold heartbeat, heartbeat_due, heartbeat_obj, QueueMessage, garbage_collection, emit.
    fields. intros -> ->. reflexivity. }
  assert (C : IsConnected (set_clock t (heartbeat (drain s))) = true).
  { assert (W : ws_state (heartbeat (drain s)) = ws_state s
                /\ ready (heartbeat (drain s)) = ready s).
    { unfold heartbeat.
      destruct (negb (heartbeat_interval (drain s) =? 0)
                && negb (last_seq (drain s) =? 0));
        [destruct (heartbeat_due (drain s))|];
        unfold QueueMessage, garbage_collection, emit, drain;
        rewrite drain_rounds_eq; fields; split; reflexivity. }
    unfold IsConnected in *. fields. destruct W as [-> ->]. exact Hc. }
  rewrite (OneSecondTimer_alive _ C Hn), written_heartbeat.
  remember (heartbeat (drain s)) as h eqn:Eh. clear Eh C Hn.
  unfold drain, drain_bound. rewrite written_drain_rounds. fields.
  rewrite Z.rem_mod_nonneg by lia. rewrite Q.
  pose proof (Z.mod_pos_bound t 2 ltac:(lia)).
  destruct (Z.to_nat (t mod 2 + 1)) as [|k] eqn:K; [lia|].
  cbn [firstn]. eexists. reflexivity.
Qed.

(** X14. The outbound queue is first in, first out, except for messages
    queued to the front: the drain writes the queue from its head, so a
    message queued to the back waits for all queued before it, and one
    queued to the front goes out first. [GetQueueSize] counts the message,
    and [ClearQueue] drops it with the rest. *)
Theorem queue_order :
  forall s m to_front n,
    written (trace (drain_rounds n (QueueMessage m to_front s)))
    = (written (trace s)
         ++ firstn n (if to_front then m :: message_queue s
                      else message_queue s ++ [m]))%list
    /\ GetQueueSize (QueueMessage m to_front s) = GetQueueSize s + 1
    /\ GetQueueSize (ClearQueue (QueueMessage m to_front s)) = 0.
Proof.
  intros s m to_front n. rewrite written_drain_rounds.
  unfold GetQueueSize, ClearQueue, QueueMessage.
  destruct to_front; fields; rewrite ?length_app; cbn [List.length];
    repeat split; lia.
Qed.


(** *** Error *)

(** X15. [Error] only reports: it adds one warning to the log and leaves
    every other field of the client alone; in particular it does not close
    the transport. The text is the one the table gives for the code, for
    each of its entries, and ["Unknown error"] for a code the table does not
    have. *)
Theorem Error_only_logs :
  forall errorcode s,
    Error errorcode s
    = set_trace (trace s ++ log_entry ll_warning (error_message errorcode) s)%list s
    /\ closes (trace (Error errorcode s)) = closes (trace s)
    /\ written (trace (Error errorcode s)) = written (trace s)
    /\ (forall text,
           In (errorcode, text) errortext ->
           error_message errorcode
           = "OOF! Error from underlying websocket: " ++ fmt_int errorcode
               ++ ": " ++ text)
    /\ (~ In errorcode (map fst errortext) ->
        error_message errorcode
        = "OOF! Error from underlying websocket: " ++ fmt_int errorcode
            ++ ": Unknown error").
Proof.
  intros errorcode s. unfold Error. rewrite log_eq. fields.
  rewrite closes_app, written_app, closes_log_entry, written_log_entry, !app_nil_r.
  repeat split.
  - intros text H. unfold errortext in H. cbn [In] in H.
    repeat (destruct H as [H|H];
            [assert (E : errorcode = fst (errorcode, text)) by reflexivity;
             assert (T : text = snd (errorcode, text)) by reflexivity;
             rewrite <- H in E, T; cbn [fst snd] in E, T; subst errorcode text;
             reflexivity|]).
    contradiction.
  - intros H. unfold error_message.
    assert (N : forall table, ~ In errorcode (map fst table) ->
                              errortext_find errorcode table = None).
    { induction table as [|[code text] table IH]; [reflexivity|].
      cbn [map fst In errortext_find]. intros X.
      destruct (Z.eqb_spec code errorcode) as [E|_];
        [exfalso; apply X; left; exact E|].
      apply IH. intros Y. apply X. right. exact Y. }
    rewrite (N _ H). reflexivity.
Qed.

(** *** Voice *)








(** *** The guild counts *)

Lemma total_cons (x : Z) (l : list Z) : total (x :: l) = x + total l.
Proof. reflexivity. Qed.

Lemma total_nonneg {A} (f : A -> Z) (l : list A) :
  (forall x, 0 <= f x) -> 0 <= total (map f l).
Proof.
  intros H. induction l as [|x l IH]; [cbn; lia|].
  rewrite map_cons, total_cons. specialize (H x). lia.
Qed.

(** The counting loop of the three functions, for a weight [w] per guild. *)
Lemma count_loop (w : Guild.guild -> Z) (id : Z) : forall (gc : cache_container) t0,
  (forall g, 0 <= w g) ->
  0 <= t0 ->
  t0 + total (map (fun g => w (snd g)) gc) < 2 ^ 64 ->
  fold_left
    (fun t (g : Z * Guild.guild) =>
       if Guild.shard_id (snd g) =? id then uint64 (t + w (snd g)) else t)
    gc t0
  = t0 + total (map (fun g => if Guild.shard_id (snd g) =? id then w (snd g) else 0) gc).
Proof.
  induction gc as [|g gc IH]; intros t0 Hw H0 Hb.
  - cbn. lia.
  - rewrite map_cons, total_cons in *. cbn [fold_left].
    pose proof (total_nonneg (fun g : Z * Guild.guild => w (snd g)) gc
                  (fun g => Hw (snd g))) as T.
    pose proof (Hw (snd g)) as Wg.
    destruct (Guild.shard_id (snd g) =? id).
    + unfold uint64. rewrite Z.mod_small by lia. rewrite IH by (auto; lia). lia.
    + rewrite IH by (auto; lia). lia.
Qed.

Lemma total_app_map {A} (f h : A -> Z) (l : list A) :
  total (map (fun x => f x + h x) l) = total (map f l) + total (map h l).
Proof.
  induction l as [|x l IH]; [reflexivity|].
  rewrite !map_cons, !total_cons, IH. lia.
Qed.

Lemma total_zero {A} (f : A -> Z) (l : list A) :
  (forall x, In x l -> f x = 0) -> total (map f l) = 0.
Proof.
  induction l as [|x l IH]; intros H; [reflexivity|].
  rewrite map_cons, total_cons, IH, (H x).
  - reflexivity.
  - left. reflexivity.
  - intros y Y. apply H. right. exact Y.
Qed.

(** Among shards with distinct ids, exactly one has a given id of theirs. *)
Lemma one_owner (x v : Z) : forall shards : list State,
  NoDup (map shard_id shards) ->
  In x (map shard_id shards) ->
  total (map (fun s => if x =? shard_id s then v else 0) shards) = v.
Proof.
  induction shards as [|s shards IH]; intros N I; [destruct I|].
  rewrite map_cons in N, I. apply NoDup_cons_iff in N as [Hs N].
  rewrite map_cons, total_cons.
  destruct (Z.eqb_spec x (shard_id s)) as [->|Hne].
  - rewrite total_zero; [lia|]. intros a Ha.
    destruct (Z.eqb_spec (shard_id s) (shard_id a)) as [E|]; [|reflexivity].
    exfalso. apply Hs. rewrite E. apply in_map, Ha.
  - destruct I as [E|I]; [congruence|]. rewrite IH by assumption. lia.
Qed.

Lemma owners_partition (w : Guild.guild -> Z) (shards : list State) :
  forall gc : cache_container,
    NoDup (map shard_id shards) ->
    (forall g, In g gc -> In (Guild.shard_id (snd g)) (map shard_id shards)) ->
    total (map (fun s =>
                  total (map (fun g => if Guild.shard_id (snd g) =? shard_id s
                                       then w (snd g) else 0) gc)) shards)
    = total (map (fun g => w (snd g)) gc).
Proof.
  induction gc as [|g gc IH]; intros N I.
  - apply total_zero. reflexivity.
  - rewrite map_cons, total_cons.
    rewrite <- IH by (auto; intros x X; apply I; right; exact X).
    rewrite <- (one_owner (Guild.shard_id (snd g)) (w (snd g)) shards N)
      by (apply I; left; reflexivity).
    rewrite <- total_app_map. f_equal.
Qed.

(** X18. The three counts split the cache among the shards: when the
    shards have distinct ids, every cached guild is on one of them and the
    totals fit [uint64_t], the guild counts of the shards add up to the
    number of cached guilds, their member counts to the number of all
    members and their channel counts to the number of all channels. *)
Theorem counts_partition_cache :
  forall (gc : cache_container) (shards : list State),
    NoDup (map shard_id shards) ->
    (forall g, In g gc -> In (Guild.shard_id (snd g)) (map shard_id shards)) ->
    Z.of_nat (List.length gc) < 2 ^ 64 ->
    all_members gc < 2 ^ 64 ->
    all_channels gc < 2 ^ 64 ->
    total (map (GetGuildCount gc) shards) = Z.of_nat (List.length gc)
    /\ total (map (GetMemberCount gc) shards) = all_members gc
    /\ total (map (GetChannelCount gc) shards) = all_channels gc.
Proof.
  intros gc shards N I Hg Hm Hc.
  assert (L : total (map (fun g : Z * Guild.guild => 1) gc) = Z.of_nat (List.length gc)).
  { clear. induction gc as [|g gc IH]; [reflexivity|].
    rewrite map_cons, total_cons, IH. cbn [List.length]. lia. }
  assert (G : forall (w : Guild.guild -> Z) (f : cache_container -> State -> Z),
             (forall g, 0 <= w g) ->
             total (map (fun g => w (snd g)) gc) < 2 ^ 64 ->
             (forall s, f gc s
                        = fold_left
                            (fun t (g : Z * Guild.guild) =>
                               if Guild.shard_id (snd g) =? shard_id s
                               then uint64 (t + w (snd g)) else t) gc 0) ->
             total (map (f gc) shards) = total (map (fun g => w (snd g)) gc)).
  { intros w f Hw Hb Hf. rewrite <- (owners_partition w shards gc N I).
    f_equal. apply map_ext. intros s. rewrite Hf.
    rewrite count_loop; [lia|exact Hw|lia|lia]. }
  split; [|split].
  - rewrite <- L. apply (G (fun _ => 1)); [lia|rewrite L; exact Hg|reflexivity].
  - apply (G (fun g => Z.of_nat (List.length (Guild.members g))));
      [lia|exact Hm|reflexivity].
  - apply (G (fun g => Z.of_nat (List.length (Guild.channels g))));
      [lia|exact Hc|reflexivity].
Qed.


(** *** Construction, reconnection, uptime *)

(** X19. A newly constructed client has no session: until it is ready the
    tick does nothing, and the first HELLO is answered by an IDENTIFY, never
    a RESUME, whatever sequence number the frame carries and whatever the
    members the constructor leaves uninitialised hold. It is the client's
    first reconnect, and no resume. *)
Theorem new_client_identifies :
  forall before _cluster _shard_id _max_shards _token _intents comp
         fuel buffer data s1 j v seq interval,
    let s := DiscordClient_new before _cluster _shard_id _max_shards _token
               _intents comp in
    decode_frame fuel buffer s = inr (data, s1) ->
    parse data = inr j ->
    frame_seq j = inr seq ->
    json_find "op" j = Some v ->
    get_uint32 v = inr 10 ->
    frame_heartbeat_interval j = inr interval ->
    last_identify _cluster + 5 - clock before < 2 ^ 32 ->
    (1 <= fuel)%nat ->
    OneSecondTimer s = s
    /\ exists s',
        HandleFrame fuel buffer s = Returned true s'
        /\ written (trace s') = (written (trace before) ++ [dump (identify_obj s)])%list
        /\ reconnects s' = 1
        /\ resumes s' = 0
        /\ sessionid s' = "".
Proof.
  intros before cl sid ms tok ints comp fuel buffer data s1 j v seq interval s
         Hd Hp Hs Hop Hv Hi Hfit Hfuel.
  split.
  { subst s. unfold OneSecondTimer, IsConnected, DiscordClient_new. fields.
    destruct (ws_state before); reflexivity. }
  assert (F : sessionid s = "" /\ reconnects s = 0 /\ resumes s = 0
              /\ clock s = clock before /\ creator s = cl
              /\ trace s = trace before) by (repeat split; reflexivity).
  destruct F as (Fsid & Frec & Fres & Fclk & Fcre & Ftr).
  clearbody s.
  destruct (HandleFrame_dispatch _ _ _ _ _ _ _ _ _ Hd Hp Hs Hop Hv) as [-> [c ->]].
  clear Hd.
  change (dispatch fuel 10 j data (at_switch (with_codec c s) data seq))
    with (hello fuel j (at_switch (with_codec c s) data seq)).
  assert (R : resumable (at_switch (with_codec c s) data seq) = false).
  { unfold resumable. destruct seq; session; rewrite Fsid; apply andb_false_r. }
  rewrite (hello_identifies _ _ _ _ Hi R); [| |assumption].
  2:{ destruct seq; session; rewrite Fcre, Fclk; assumption. }
  eexists. split; [reflexivity|].
  rewrite identified_eq. cbv zeta. unfold identify_obj, identify_d.
  destruct seq, interval; session;
    rewrite ?Fsid, ?Frec, ?Fres, ?Ftr, !written_app, ?written_gate_wait;
    (destruct (dispatch_log (creator s)); cbn [written app];
     rewrite ?app_nil_r; repeat split; reflexivity).
Qed.

(** X20. One turn of the reconnect loop, from the return of [ReadLoop] to
    the fresh zlib stream: the transport is closed once, [ready] is false and
    the queue empty, so the tick does nothing until the client is ready
    again; nothing is written; the session id, the sequence number and with
    them the right to RESUME survive. A client without compression keeps its
    stream untouched; on a compressed one the stream is the one [inflateInit]
    leaves after [inflateEnd], and the turn ends in the runtime error exactly
    when [inflateInit] does not return [Z_OK]. *)
Theorem after_ReadLoop_keeps_session :
  forall s,
    match after_ReadLoop s with
    | inl what =>
        compressed s = true
        /\ fst (inflateInit (snd (inflateEnd (d_stream s)))) <> Z_OK
        /\ what = "Can't initialise stream compression!"
    | inr s' =>
        ready s' = false
        /\ message_queue s' = []
        /\ OneSecondTimer s' = s'
        /\ closes (trace s') = (closes (trace s) ++ [(clock s, EvClose)])%list
        /\ written (trace s') = written (trace s)
        /\ sessionid s' = sessionid s
        /\ last_seq s' = last_seq s
        /\ resumable s' = resumable s
        /\ d_stream s'
           = (if compressed s then snd (inflateInit (snd (inflateEnd (d_stream s))))
              else d_stream s)
        /\ (compressed s = true ->
            fst (inflateInit (snd (inflateEnd (d_stream s)))) = Z_OK)
    end.
Proof.
  intros s. unfold after_ReadLoop, SetupZLib, EndZLib, close, emit.
  destruct (compressed s) eqn:C; fields2; rewrite ?C; fields2; rewrite ?C; fields2.
  - destruct (inflateInit (snd (inflateEnd (d_stream s)))) as [code zs].
    cbn [fst snd].
    destruct (Z.eqb_spec code Z_OK) as [->|Hne]; cbn [negb].
    + unfold OneSecondTimer, IsConnected, resumable. fields2.
      rewrite closes_app, written_app. cbn [closes written]. rewrite app_nil_r.
      destruct (ws_state s); repeat split; reflexivity.
    + repeat split. exact Hne.
  - unfold OneSecondTimer, IsConnected, resumable. fields2.
    rewrite closes_app, written_app. cbn [closes written]. rewrite app_nil_r.
    destruct (ws_state s); repeat split; try reflexivity; discriminate.
Qed.

(** X21. [Uptime] counts from the last IDENTIFY: a HELLO answered by an
    IDENTIFY sets it to zero, a HELLO answered by a RESUME leaves
    [connect_time] as it was. *)
Theorem uptime_restarts_on_identify :
  forall fuel buffer s data s1 j v seq interval,
    decode_frame fuel buffer s = inr (data, s1) ->
    parse data = inr j ->
    frame_seq j = inr seq ->
    json_find "op" j = Some v ->
    get_uint32 v = inr 10 ->
    frame_heartbeat_interval j = inr interval ->
    last_identify (creator s) + 5 - clock s < 2 ^ 32 ->
    (1 <= fuel)%nat ->
    exists s',
      HandleFrame fuel buffer s = Returned true s'
      /\ if resumable (at_switch s1 data seq)
         then connect_time s' = connect_time s /\ clock s' = clock s
              /\ Uptime s' = Uptime s
         else Uptime s' = 0.
Proof.
  intros fuel buffer s data s1 j v seq interval Hd Hp Hs Hop Hv Hi Hfit Hfuel.
  destruct (HandleFrame_dispatch _ _ _ _ _ _ _ _ _ Hd Hp Hs Hop Hv) as [-> [c ->]].
  clear Hd.
  change (dispatch fuel 10 j data (at_switch (with_codec c s) data seq))
    with (hello fuel j (at_switch (with_codec c s) data seq)).
  destruct (resumable (at_switch (with_codec c s) data seq)) eqn:R.
  - rewrite (hello_resumes _ _ _ _ Hi R). eexists. split; [reflexivity|].
    rewrite resumed_eq. unfold Uptime.
    destruct seq, interval; session; repeat split; reflexivity.
  - rewrite (hello_identifies _ _ _ _ Hi R); [| |assumption].
    2:{ destruct seq; session; assumption. }
    eexists. split; [reflexivity|].
    rewrite identified_eq. cbv zeta. unfold Uptime.
    destruct seq, interval; session; lia.
Qed.


End Gateway.

(** ** The properties at work on the samples *)

(** A HELLO on an established session is answered by a RESUME; on a shard
    that never had a session, by an IDENTIFY. *)
Lemma hello_sends_resume_or_identify_witness :
  (exists s',
      HandleFrame stored_inflate sample_parse show sample_HandleEvent
        1 "hello" (live_client 1000 40000 990 [])
      = Returned true s'
      /\ last_heartbeat_ack s' = clock s'
      /\ heartbeat_interval s' = 41250
      /\ written (trace s')
         = ["{op:6 d:{token:'secret' session_id:'abc' seq:42 } }"]
      /\ resumes s' = 1
      /\ reconnects s' = 1)
  /\ (exists s',
         HandleFrame stored_inflate sample_parse show sample_HandleEvent
           1 "hello" (fresh_client false)
         = Returned true s'
         /\ last_heartbeat_ack s' = clock s'
         /\ written (trace s')
            = [("{op:2 d:{token:'secret' "
                  ++ "properties:{$os:'Linux' $browser:'D++' $device:'D++' } "
                  ++ "shard:[0 1 ] compress:false large_threshold:250 "
                  ++ "intents:513 } }")%string]
         /\ resumes s' = 0
         /\ reconnects s' = 1).
Proof.
  split.
  - destruct (hello_sends_resume_or_identify
                stored_inflate sample_parse show sample_HandleEvent
                1 "hello" (live_client 1000 40000 990 [])
                "hello" (live_client 1000 40000 990 [])
                (JObj [ ("op", JNum 10);
                        ("d", JObj [ ("heartbeat_interval", JNum 41250) ]) ])
                (JNum 10) None (Some 41250)
                eq_refl eq_refl eq_refl eq_refl eq_refl eq_refl eq_refl (le_n 1))
      as (s' & E & A & I & X).
    exists s'. vm_compute in X. destruct X as (W & R & R').
    repeat split; assumption.
  - destruct (hello_sends_resume_or_identify
                stored_inflate sample_parse show sample_HandleEvent
                1 "hello" (fresh_client false)
                "hello" (fresh_client false)
                (JObj [ ("op", JNum 10);
                        ("d", JObj [ ("heartbeat_interval", JNum 41250) ]) ])
                (JNum 10) None (Some 41250)
                eq_refl eq_refl eq_refl eq_refl eq_refl eq_refl eq_refl (le_n 1))
      as (s' & E & A & I & X).
    exists s'. vm_compute in X. destruct X as (W & R & R').
    repeat split; assumption.
Defined.

(** An INVALID_SESSION on the same session is answered by an IDENTIFY. *)
Lemma invalid_session_reidentifies_witness :
  exists s',
    HandleFrame stored_inflate sample_parse sample_dump sample_HandleEvent
      1 "invalid session" (live_client 1000 40000 990 [])
    = Returned true s'
    /\ sessionid s' = "" /\ last_seq s' = 0
    /\ written (trace s') = ["op 2"].
Proof.
  destruct (invalid_session_reidentifies
              stored_inflate sample_parse sample_dump sample_HandleEvent
              1 "invalid session" (live_client 1000 40000 990 [])
              "invalid session" (live_client 1000 40000 990 [])
              (JObj [ ("op", JNum 9) ]) (JNum 9) None None
              eq_refl eq_refl eq_refl eq_refl eq_refl eq_refl eq_refl (le_n 1))
    as (_ & _ & _ & _ & s' & E & S1 & S2 & W & _).
  exists s'. repeat split; assumption.
Defined.


(** A cold connect of a shard that runs alone, two seconds after the
    cluster's last IDENTIFY: the shard sleeps three seconds and identifies
    at second 1003. *)
Lemma identify_throttled_witness :
  exists s',
    HandleFrame stored_inflate sample_parse sample_dump sample_HandleEvent
      1 "hello" (fresh_client false)
    = Returned true s'
    /\ clock s' = 1003
    /\ last_identify (creator s') = 1003
    /\ connect_time s' = 1003
    /\ reconnects s' = 1.
Proof.
  destruct (identify_throttled
              stored_inflate sample_parse sample_dump sample_HandleEvent
              1 "hello" (fresh_client false) "hello" (fresh_client false)
              (JObj [ ("op", JNum 10);
                      ("d", JObj [ ("heartbeat_interval", JNum 41250) ]) ])
              (JNum 10) 10 None (Some 41250)
              eq_refl eq_refl eq_refl eq_refl eq_refl eq_refl
              (or_intror (conj eq_refl eq_refl)) eq_refl (le_n 1))
    as (s' & before & E & _ & _ & _ & _ & C & L & T & R).
  exists s'. rewrite L, T, C. repeat split; assumption.
Defined.

(** Two shards of a cluster whose last IDENTIFY went out at second 998
    come to the full connect at second 1000: the first sleeps three seconds,
    and both IDENTIFY messages are written at second 1003. *)
Lemma identify_race_same_second_witness :
  exists r,
    identify_race show 1 sample_shared (sample_shard 0) (sample_shard 1) = Some r
    /\ written (calls (shared_after r))
       = [ ("{op:2 d:{token:'secret' "
              ++ "properties:{$os:'Linux' $browser:'D++' $device:'D++' } "
              ++ "shard:[0 2 ] compress:false large_threshold:250 } }")%string;
           ("{op:2 d:{token:'secret' "
              ++ "properties:{$os:'Linux' $browser:'D++' $device:'D++' } "
              ++ "shard:[1 2 ] compress:false large_threshold:250 } }")%string ]
    /\ write_times (calls (shared_after r)) = [1003; 1003]
    /\ last_identify (creator (second_writing r)) = 1003
    /\ clock (second_writing r) = 1003.
Proof.
  destruct (identify_race_same_second show 1 sample_shared
              (sample_shard 0) (sample_shard 1) eq_refl (le_n 1))
    as (r & E & W & M & L & C & _).
  exists r. split; [exact E|]. split; [exact W|]. split; [exact M|].
  split; [exact L | exact C].
Defined.

(** A data error of zlib on the first round. *)
Lemma zlib_failure_logged_and_closed_witness :
  exists s',
    HandleFrame (failing_inflate Z_DATA_ERROR) sample_parse sample_dump sample_HandleEvent
      1 ("hello" ++ trailer_text) (fresh_client true)
    = Returned true s'
    /\ trace s'
       = [ (1000, EvLog ll_warning
                    "OOF! Error from underlying websocket: 6001: ZLib Data Error");
           (1000, EvClose) ].
Proof.
  destruct (zlib_failure_logged_and_closed
              (failing_inflate Z_DATA_ERROR) sample_parse sample_dump sample_HandleEvent
              ("hello" ++ trailer_text) (fresh_client true) 0
              (inflate_start ("hello" ++ trailer_text) (fresh_client true)) 6001 1
              eq_refl eq_refl eq_refl
              (or_intror (or_introl (conj eq_refl eq_refl))) (le_n 1))
    as (_ & s' & E & _ & T).
  exists s'. split; [exact E | exact T].
Defined.

(** The comparison of line 399 around its threshold: 0.75 of 41250 ms is
    30.9375 s, 0.75 of 40000 ms is 30 s, counted from the heartbeat of second
    1000. *)
Example heartbeat_due_samples :
  heartbeat_due (live_client 1030 41250 1030 []) = false
  /\ heartbeat_due (live_client 1031 41250 1030 []) = true
  /\ heartbeat_due (live_client 1030 40000 1030 []) = false
  /\ heartbeat_due (live_client 1031 40000 1030 []) = true.
Proof. vm_compute. repeat split. Qed.

(** Second 1031 is past 0.75 of an interval of 41250 ms after the
    heartbeat of second 1000. *)
Lemma heartbeat_emission_witness :
  let s := live_client 1031 41250 1030 ["a"; "b"; "c"] in
  message_queue (OneSecondTimer sample_dump s) = ["op 1"; "c"]
  /\ last_heartbeat (OneSecondTimer sample_dump s) = 1031.
Proof.
  pose proof (heartbeat_emission sample_dump
                (live_client 1031 41250 1030 ["a"; "b"; "c"]) eq_refl eq_refl) as H.
  vm_compute in H. destruct H as (Q & L & _). split; [exact Q | exact L].
Defined.

(** A text the parser rejects. *)
Lemma unparseable_frame_dropped_witness :
  exists s',
    HandleFrame stored_inflate sample_parse sample_dump sample_HandleEvent
      1 "junk" (live_client 1000 40000 990 [])
    = Returned true s'
    /\ last_seq s' = 42 /\ sessionid s' = "abc"
    /\ closes (trace s') = [].
Proof.
  destruct (unparseable_frame_dropped
              stored_inflate sample_parse sample_dump sample_HandleEvent
              1 "junk" (live_client 1000 40000 990 [])
              "junk" (live_client 1000 40000 990 []) "syntax error"
              eq_refl eq_refl)
    as (s' & E & _ & C & _ & S & I & _).
  exists s'. repeat split; assumption.
Defined.

(** Two bytes on a compressed client. *)
Lemma short_buffer_read_out_of_bounds_witness :
  HandleFrame stored_inflate sample_parse sample_dump sample_HandleEvent
    1 "ab" (fresh_client true)
  = OutOfBounds.
Proof.
  apply (short_buffer_read_out_of_bounds
           stored_inflate sample_parse sample_dump sample_HandleEvent
           1 "ab" (fresh_client true) eq_refl eq_refl).
  reflexivity.
Defined.

(** Three queued messages: the tick of the odd second 1001 sends two of
    them, the tick of the even second 1000 sends one, and a tick that
    begins in second 1000 and reads 1001 at the second test of its loop
    sends two. *)
Lemma drain_parity_inverted_witness :
  Z.odd 1001 = true
  /\ written (trace (OneSecondTimer sample_dump
                      (live_client 1001 40000 1000 ["a"; "b"; "c"])))
     = ["a"; "b"]
  /\ written (trace (OneSecondTimer sample_dump
                      (live_client 1000 40000 1000 ["a"; "b"; "c"])))
     = ["a"]
  /\ written (trace (OneSecondTimer_reads sample_dump 1000 [1000; 1001; 1001] 1001 1001
                      (live_client 1000 40000 1000 ["a"; "b"; "c"])))
     = ["a"; "b"].
Proof.
  split; [reflexivity|]. split; [|split].
  - destruct (drain_parity_inverted sample_dump
                (live_client 1001 40000 1000 ["a"; "b"; "c"]) eq_refl) as (_ & H).
    apply H; [reflexivity|discriminate].
  - destruct (drain_parity_inverted sample_dump
                (live_client 1000 40000 1000 ["a"; "b"; "c"]) eq_refl) as (_ & H).
    apply H; [reflexivity|discriminate].
  - destruct (drain_parity_inverted sample_dump
                (live_client 1000 40000 1000 ["a"; "b"; "c"]) eq_refl) as (H & _).
    apply (H 1000 1000 1001 [1001] 1001 1001); [reflexivity|discriminate|discriminate].
Defined.

(** Scenario S4: 85 seconds without an ACK at an interval of 40000 ms. *)
Lemma missed_acks_after_85s_not_detected_witness :
  let s := live_client 1000 40000 915 ["a"] in
  ack_missed s = false
  /\ closes (trace (OneSecondTimer sample_dump s)) = []
  /\ written (trace (OneSecondTimer sample_dump s)) = ["a"].
Proof.
  destruct (missed_acks_after_85s_not_detected sample_dump
              (live_client 1000 40000 915 ["a"]) eq_refl eq_refl)
    as (_ & H).
  destruct (H eq_refl) as (M & _ & C).
  split; [exact M|]. split; [exact C | reflexivity].
Defined.

(** ** The further properties at work on the samples *)

(** An ACK that carries a sequence number. *)
Lemma heartbeat_ack_recorded_witness :
  exists s',
    HandleFrame stored_inflate sample_parse2 sample_dump sample_HandleEvent
      0 "ack 43" (live_client 1000 40000 990 ["a"])
    = Returned true s'
    /\ last_heartbeat_ack s' = 1000
    /\ last_seq s' = 43
    /\ message_queue s' = ["a"].
Proof.
  destruct (heartbeat_ack_recorded
              stored_inflate sample_parse2 sample_dump sample_HandleEvent
              0 "ack 43" (live_client 1000 40000 990 ["a"])
              "ack 43" (live_client 1000 40000 990 ["a"])
              (JObj [ ("op", JNum 11); ("s", JNum 43) ]) (JNum 11) (Some 43)
              eq_refl eq_refl eq_refl eq_refl eq_refl)
    as (s' & E & S & A & L & _ & Q & _).
  exists s'. split; [exact E|]. split; [rewrite S; reflexivity|].
  split; [exact L | exact Q].
Defined.

Lemma reconnect_requested_witness :
  (exists s',
      HandleFrame stored_inflate sample_parse3 sample_dump sample_HandleEvent
        0 "reconnect" (live_client 1000 40000 990 ["a"; "b"])
      = Returned true s'
      /\ message_queue s' = []
      /\ closes (trace s') = [(1000, EvCloseSocket)]
      /\ sessionid s' = "abc"
      /\ last_seq s' = 42
      /\ resumable s' = true)
  /\ (exists s',
         HandleFrame stored_inflate sample_parse3 sample_dump sample_HandleEvent
           0 "reconnect 0" (live_client 1000 40000 990 ["a"; "b"])
         = Returned true s'
         /\ sessionid s' = "abc"
         /\ last_seq s' = 0
         /\ resumable s' = false).
Proof.
  split.
  - destruct (reconnect_requested
                stored_inflate sample_parse3 sample_dump sample_HandleEvent
                0 "reconnect" (live_client 1000 40000 990 ["a"; "b"])
                "reconnect" (live_client 1000 40000 990 ["a"; "b"])
                (JObj [ ("op", JNum 7); ("s", JNull) ]) (JNum 7) None
                eq_refl eq_refl eq_refl eq_refl eq_refl)
      as (s' & E & Q & C & _ & S & L & R & _).
    exists s'. repeat split; assumption.
  - destruct (reconnect_requested
                stored_inflate sample_parse3 sample_dump sample_HandleEvent
                0 "reconnect 0" (live_client 1000 40000 990 ["a"; "b"])
                "reconnect 0" (live_client 1000 40000 990 ["a"; "b"])
                (JObj [ ("op", JNum 7); ("s", JNum 0) ]) (JNum 7) (Some 0)
                eq_refl eq_refl eq_refl eq_refl eq_refl)
      as (s' & E & _ & _ & _ & S & L & R & _).
    exists s'. repeat split; assumption.
Defined.

(** A heartbeat request of the server. *)
Lemma other_opcodes_ignored_witness :
  exists s',
    HandleFrame stored_inflate sample_parse2 sample_dump sample_HandleEvent
      0 "heartbeat request" (live_client 1000 40000 990 ["a"])
    = Returned true s'
    /\ last_seq s' = 43
    /\ message_queue s' = ["a"]
    /\ written (trace s') = [].
Proof.
  destruct (other_opcodes_ignored
              stored_inflate sample_parse2 sample_dump sample_HandleEvent
              0 "heartbeat request" (live_client 1000 40000 990 ["a"])
              "heartbeat request" (live_client 1000 40000 990 ["a"])
              (JObj [ ("op", JNum 1); ("s", JNum 43) ]) (Some 43)
              eq_refl eq_refl eq_refl)
    as (s' & E & _ & L & Q & _ & _ & W & _).
  - right. exists (JNum 1), 1. repeat split.
    intros [H|[H|[H|[H|[H|[]]]]]]; discriminate.
  - exists s'. repeat split; assumption.
Defined.

Lemma bad_sequence_raises_witness :
  exists s',
    HandleFrame stored_inflate sample_parse2 sample_dump sample_HandleEvent
      0 "bad seq" (live_client 1000 40000 990 [])
    = Thrown (type_error 302) s'
    /\ last_seq s' = 42
    /\ last_heartbeat_ack s' = 990.
Proof.
  destruct (bad_sequence_raises
              stored_inflate sample_parse2 sample_dump sample_HandleEvent
              0 "bad seq" (live_client 1000 40000 990 [])
              "bad seq" (live_client 1000 40000 990 [])
              (JObj [ ("op", JNum 11); ("s", JStr "43") ]) (JStr "43")
              eq_refl eq_refl eq_refl)
    as (s' & E & _ & L & _ & A & _).
  - discriminate.
  - exists s'. repeat split; assumption.
Defined.

Lemma bad_heartbeat_interval_raises_witness :
  exists s',
    HandleFrame stored_inflate sample_parse2 sample_dump sample_HandleEvent
      0 "bad hello" (live_client 1000 40000 990 [])
    = Thrown (type_error 302) s'
    /\ written (trace s') = []
    /\ heartbeat_interval s' = 40000.
Proof.
  destruct (bad_heartbeat_interval_raises
              stored_inflate sample_parse2 sample_dump sample_HandleEvent
              0 "bad hello" (live_client 1000 40000 990 [])
              "bad hello" (live_client 1000 40000 990 [])
              (JObj [ ("op", JNum 10);
                      ("d", JObj [ ("heartbeat_interval", JStr "soon") ]) ])
              (JNum 10) 10 None
              (JObj [ ("heartbeat_interval", JStr "soon") ]) (JStr "soon")
              eq_refl eq_refl eq_refl eq_refl eq_refl (or_intror eq_refl)
              eq_refl eq_refl)
    as (s' & E & W & _ & _ & I & _).
  - discriminate.
  - discriminate.
  - exists s'. repeat split; assumption.
Defined.

(** A READY dispatch with a handler that marks the client ready. *)
Lemma dispatch_forwarded_witness :
  HandleFrame stored_inflate sample_parse2 sample_dump ready_HandleEvent
    0 "ready" (fresh_client false)
  = Returned true
      (set_ready true
         (set_last_seq 1 (log ll_trace "R: ready" (fresh_client false)))).
Proof.
  exact (proj2 (dispatch_forwarded
                  stored_inflate sample_parse2 sample_dump ready_HandleEvent
                  0 "ready" (fresh_client false) "ready" (fresh_client false)
                  (JObj [ ("op", JNum 0); ("t", JStr "READY"); ("s", JNum 1) ])
                  (JNum 0) (Some 1)
                  eq_refl eq_refl eq_refl eq_refl eq_refl)).
Defined.

Lemma uncompressed_always_consumed_witness :
  HandleFrame stored_inflate sample_parse sample_dump sample_HandleEvent
    0 "ab" (fresh_client false)
  <> OutOfBounds.
Proof.
  exact (proj1 (uncompressed_always_consumed
                  stored_inflate sample_parse sample_dump sample_HandleEvent
                  0 "ab" (fresh_client false) eq_refl)).
Defined.

(** The stored codec counts the five bytes of its text. *)
Lemma decompressed_bytes_accounted_witness :
  GetDeompressedBytesIn
    (set_decompressed_total 5
       (set_decompressed "hello"
          (set_d_stream {| next_in := ""; avail_in := 0;
                           avail_out := DECOMP_BUFFER_SIZE - 5;
                           internal_state := 0%N |}
             (fresh_client true))))
  = uint64 (GetDeompressedBytesIn (fresh_client true) + 5).
Proof.
  apply (decompressed_bytes_accounted stored_inflate 1
           ("hello" ++ trailer_text) (fresh_client true)).
  - intros zs H. unfold stored_inflate. cbn [stream decomp_buffer avail_out].
    rewrite H. unfold size. lia.
  - split; [discriminate | reflexivity].
  - reflexivity.
Defined.

(** zlib answers [Z_STREAM_END]: the text handled is empty. *)
Lemma unhandled_zlib_result_drops_output_witness :
  HandleFrame (failing_inflate Z_STREAM_END) sample_parse sample_dump sample_HandleEvent
    1 ("hello" ++ trailer_text) (fresh_client true)
  = handle_text sample_parse sample_dump sample_HandleEvent 1 ""
      (set_d_stream
         {| next_in := "hello" ++ trailer_text; avail_in := 9;
            avail_out := DECOMP_BUFFER_SIZE; internal_state := 0%N |}
         (fresh_client true)).
Proof.
  destruct (unhandled_zlib_result_drops_output
              (failing_inflate Z_STREAM_END) sample_parse sample_dump sample_HandleEvent
              0 ("hello" ++ trailer_text) (fresh_client true) eq_refl eq_refl)
    as (E & _).
  - intros [H|[H|[H|[H|[H|[]]]]]]; discriminate.
  - discriminate.
  - exact E.
Defined.

Lemma identify_gate_safe_witness :
  exists s',
    identify_gate 1 (fresh_client false) = Some s'
    /\ 1003 <= clock s'
    /\ written (trace s') = [].
Proof.
  eexists. split; [reflexivity|].
  destruct (identify_gate_safe 1 (fresh_client false) _ eq_refl)
    as (A & _ & W & _).
  split; [exact A | exact W].
Defined.


Lemma heartbeat_sent_first_next_tick_witness :
  exists rest,
    written (trace (OneSecondTimer sample_dump
                      (set_clock 1032
                         (OneSecondTimer sample_dump
                            (live_client 1031 41250 1030 ["a"; "b"; "c"; "d"])))))
    = (["a"; "b"] ++ "op 1" :: rest)%list.
Proof.
  destruct (heartbeat_sent_first_next_tick sample_dump
              (live_client 1031 41250 1030 ["a"; "b"; "c"; "d"]) 1032
              eq_refl eq_refl eq_refl)
    as (_ & rest & E).
  - discriminate.
  - reflexivity.
  - exists rest. exact E.
Defined.



(** Shards 0 and 1 of two over the sample cache. *)
Lemma counts_partition_cache_witness :
  GetGuildCount sample_cache (sample_shard 0)
  + GetGuildCount sample_cache (sample_shard 1) = 3
  /\ GetMemberCount sample_cache (sample_shard 0)
     + GetMemberCount sample_cache (sample_shard 1) = 6.
Proof.
  destruct (counts_partition_cache sample_cache [sample_shard 0; sample_shard 1])
    as (G & M & _).
  - repeat constructor; [intros [H|[]]; discriminate | intros []].
  - intros g [<-|[<-|[<-|[]]]]; cbn; tauto.
  - reflexivity.
  - reflexivity.
  - reflexivity.
  - cbn [map total fold_right] in G, M. rewrite Z.add_0_r in G, M.
    split; [exact G | exact M].
Defined.

(** The first HELLO of a new shard. *)
Lemma new_client_identifies_witness :
  exists s',
    HandleFrame stored_inflate sample_parse sample_dump sample_HandleEvent
      1 "hello" (sample_shard 1)
    = Returned true s'
    /\ written (trace s') = ["op 2"]
    /\ reconnects s' = 1.
Proof.
  destruct (new_client_identifies
              stored_inflate sample_parse sample_dump sample_HandleEvent
              (fresh_client false) {| last_identify := 0; dispatch_log := false |}
              1 2 "secret" 0 false
              1 "hello" "hello" (sample_shard 1)
              (JObj [ ("op", JNum 10);
                      ("d", JObj [ ("heartbeat_interval", JNum 41250) ]) ])
              (JNum 10) None (Some 41250)
              eq_refl eq_refl eq_refl eq_refl eq_refl eq_refl eq_refl (le_n 1))
    as (_ & s' & E & W & R & _).
  exists s'. repeat split; assumption.
Defined.

Lemma uptime_restarts_on_identify_witness :
  exists s',
    HandleFrame stored_inflate sample_parse sample_dump sample_HandleEvent
      1 "hello" (fresh_client false)
    = Returned true s'
    /\ Uptime s' = 0.
Proof.
  destruct (uptime_restarts_on_identify
              stored_inflate sample_parse sample_dump sample_HandleEvent
              1 "hello" (fresh_client false) "hello" (fresh_client false)
              (JObj [ ("op", JNum 10);
                      ("d", JObj [ ("heartbeat_interval", JNum 41250) ]) ])
              (JNum 10) None (Some 41250)
              eq_refl eq_refl eq_refl eq_refl eq_refl eq_refl eq_refl (le_n 1))
    as (s' & E & U).
  exists s'. split; [exact E | exact U].
Defined.
